(** * copy_model.py: bundling a Joshua configuration

    A shallow embedding of [scripts/language-pack/copy_model.py] and the
    properties of its line classifier, path extractor, destination namer
    and operation planner.

    Python byte strings are [string]; the module-level dictionary
    [duplicate_name_counts] is a [gmap string nat] threaded through the
    planner; Python exceptions are values of [exn] carried by [result]. *)

From Stdlib Require Import String Ascii List ZArith Lia Bool DecimalString DecimalNat.
From stdpp Require Import base strings gmap list.

Open Scope string_scope.
Open Scope Z_scope.

(** ** Python exceptions *)

Inductive exn_class : Type :=
  | PathException   (* class PathException(Exception) *)
  | IndexError
  | TypeError
  | Exception.

Record exn : Type := MkExn { exn_kind : exn_class; message : string }.

Inductive result (A : Type) : Type :=
  | Ok (a : A)
  | Raise (e : exn).
Arguments Ok {A} a.
Arguments Raise {A} e.

(** ** The Python built-ins the script calls *)

Module Py.

Definition dq : string := String (ascii_of_nat 34) "".
Definition nl : string := String (ascii_of_nat 10) "".

(** [s[n:]] and [s[:n]] for [0 <= n]. *)
Fixpoint drop (n : nat) (s : string) : string :=
  match n, s with
  | O, _ => s
  | S _, "" => ""
  | S n', String _ r => drop n' r
  end.

Fixpoint take (n : nat) (s : string) : string :=
  match n, s with
  | O, _ => ""
  | S _, "" => ""
  | S n', String c r => String c (take n' r)
  end.

(** [s.startswith(p)] *)
Fixpoint startswith (p s : string) : bool :=
  match p, s with
  | "", _ => true
  | String _ _, "" => false
  | String a p', String b s' => Ascii.eqb a b && startswith p' s'
  end.

(** [s.endswith(c)] for a one-character suffix. *)
Fixpoint endswith_char (c : ascii) (s : string) : bool :=
  match s with
  | "" => false
  | String a "" => Ascii.eqb a c
  | String _ r => endswith_char c r
  end.

(** [s.partition(sep)] for a one-character separator: the text before the
    first [sep], the separator if it was found, the text after it. *)
Fixpoint partition (sep : ascii) (s : string) : string * string * string :=
  match s with
  | "" => ("", "", "")
  | String c r =>
      if Ascii.eqb c sep then ("", String sep "", r)
      else let '(a, h, b) := partition sep r in (String c a, h, b)
  end.

(** The characters [str.split()] treats as separators in a byte string:
    space, tab, line feed, vertical tab, form feed, carriage return. *)
Definition isspace (c : ascii) : bool :=
  let n := nat_of_ascii c in
  (Nat.eqb n 32 || (Nat.leb 9 n && Nat.leb n 13))%bool.

Definition cons_word (w : string) (ws : list string) : list string :=
  if String.eqb w "" then ws else w :: ws.

(** [split_run s] is the leading run of non-blank characters of [s] and
    the words that follow it. *)
Fixpoint split_run (s : string) : string * list string :=
  match s with
  | "" => ("", [])
  | String c r =>
      let '(w, ws) := split_run r in
      if isspace c then ("", cons_word w ws) else (String c w, ws)
  end.

(** [s.split()]: the maximal runs of non-blank characters, in order. *)
Definition split (s : string) : list string :=
  let '(w, ws) := split_run s in cons_word w ws.

(** [s.split(sep)] for a one-character separator (empty fields kept). *)
Fixpoint split_on (sep : ascii) (s : string) : list string :=
  match s with
  | "" => [""]
  | String c r =>
      match split_on sep r with
      | f :: fs => if Ascii.eqb c sep then "" :: f :: fs else String c f :: fs
      | [] => [String c ""]
      end
  end.

(** [sep.join(l)] *)
Fixpoint join (sep : string) (l : list string) : string :=
  match l with
  | [] => ""
  | [x] => x
  | x :: r => x ++ sep ++ join sep r
  end.

(** [x in l] *)
Fixpoint contains (x : string) (l : list string) : bool :=
  match l with
  | [] => false
  | y :: r => String.eqb y x || contains x r
  end.

(** [l.index(x)], used only under [x in l]; the length when absent. *)
Fixpoint index (x : string) (l : list string) : nat :=
  match l with
  | [] => O
  | y :: r => if String.eqb y x then O else S (index x r)
  end.

(** [l[i]]: negative indices count from the end, anything outside the
    list raises [IndexError]. *)
Definition getitem {A : Type} (l : list A) (i : Z) : result A :=
  let n := Z.of_nat (List.length l) in
  let j := if i <? 0 then i + n else i in
  if (j <? 0) || (n <=? j) then
    Raise (MkExn IndexError "list index out of range")
  else
    match nth_error l (Z.to_nat j) with
    | Some a => Ok a
    | None => Raise (MkExn IndexError "list index out of range")
    end.

(** [s.rfind(c)] for a one-character needle: the last position of [c],
    or [-1]. *)
Fixpoint rfind (c : ascii) (s : string) : Z :=
  match s with
  | "" => -1
  | String a r =>
      let i := rfind c r in
      if 0 <=? i then i + 1 else if Ascii.eqb a c then 0 else -1
  end.

(** [s.replace(old, new)]: every occurrence of [old], found left to right
    without overlap, becomes [new].  [skip] counts the characters of an
    occurrence already replaced that are still to be passed over. *)
Fixpoint replace_from (old new : string) (skip : nat) (s : string) : string :=
  match s with
  | "" => ""
  | String c r =>
      match skip with
      | S k => replace_from old new k r
      | O =>
          if startswith old s
          then new ++ replace_from old new (Nat.pred (String.length old)) r
          else String c (replace_from old new O r)
      end
  end.

(** With an empty [old], Python inserts [new] before every character and
    at the end. *)
Fixpoint intersperse (new s : string) : string :=
  match s with
  | "" => new
  | String c r => new ++ String c (intersperse new r)
  end.

Definition replace (s old new : string) : string :=
  match old with
  | "" => intersperse new s
  | String _ _ => replace_from old new O s
  end.

(** [str(n)] / ["{0}".format(n)] for a non-negative integer. *)
Definition str_of_nat (n : nat) : string :=
  NilEmpty.string_of_uint (Nat.to_uint n).

(** Every character of [s] satisfies [P]. *)
Fixpoint all_chars (P : ascii -> bool) (s : string) : bool :=
  match s with
  | "" => true
  | String c r => P c && all_chars P r
  end.

(** [old in s] for strings: [old] starts at some position of [s]. *)
Fixpoint occurs (old s : string) : bool :=
  startswith old s ||
  match s with
  | "" => false
  | String _ r => occurs old r
  end.

End Py.

(** ** [os.path] (posixpath) *)

Module OsPath.

(** [os.path.basename(p)]: [p[p.rfind('/') + 1:]]. *)
Definition basename (p : string) : string :=
  Py.drop (Z.to_nat (Py.rfind "/" p + 1)) p.

(** [all_dots s]: every character of [s] is the extension separator. *)
Fixpoint all_dots (s : string) : bool :=
  match s with
  | "" => true
  | String c r => Ascii.eqb c "." && all_dots r
  end.

(** [os.path.splitext(p)]: split at the last dot of the last component,
    unless that component consists of leading dots up to it. *)
Definition splitext (p : string) : string * string :=
  let sepIndex := Py.rfind "/" p in
  let dotIndex := Py.rfind "." p in
  if sepIndex <? dotIndex then
    let filenameIndex := Z.to_nat (sepIndex + 1) in
    let d := Z.to_nat dotIndex in
    if all_dots (Py.take (d - filenameIndex) (Py.drop filenameIndex p))
    then (p, "")
    else (Py.take d p, Py.drop d p)
  else (p, "").

(** One step of [os.path.join(a, *p)]. *)
Definition join2 (path b : string) : string :=
  if Py.startswith "/" b then b
  else if String.eqb path "" || Py.endswith_char "/" path then path ++ b
  else path ++ "/" ++ b.

(** [os.path.join(a, *p)] *)
Definition join (a : string) (p : list string) : string :=
  fold_left join2 p a.

(** The loop of [os.path.normpath] over the components, [new_comps] kept
    in reverse. *)
Fixpoint norm_comps (initial_slashes : nat) (comps : list string)
    (rev_new : list string) : list string :=
  match comps with
  | [] => rev rev_new
  | comp :: rest =>
      if String.eqb comp "" || String.eqb comp "." then
        norm_comps initial_slashes rest rev_new
      else if negb (String.eqb comp "..")
              || (Nat.eqb initial_slashes 0 && match rev_new with [] => true | _ => false end)
              || match rev_new with
                 | last :: _ => String.eqb last ".."
                 | [] => false
                 end
      then norm_comps initial_slashes rest (comp :: rev_new)
      else norm_comps initial_slashes rest (tl rev_new)
  end.

(** [os.path.normpath(path)] *)
Definition normpath (path : string) : string :=
  if String.eqb path "" then "."
  else
    let initial_slashes :=
      if Py.startswith "/" path then
        if Py.startswith "//" path && negb (Py.startswith "///" path)
        then 2%nat else 1%nat
      else 0%nat in
    let comps := norm_comps initial_slashes (Py.split_on "/" path) [] in
    let p := Py.join "/" comps in
    let p := Py.take initial_slashes "//" ++ p in
    if String.eqb p "" then "." else p.

End OsPath.

(** ** Module-level constants *)

Definition FILE_TYPE_TOKENS : list string := ["lm"; "tm"].
Definition FILE_TYPE_OPTIONS : list string := ["-path"; "-lm_file"].
Definition OUTPUT_CONFIG_FILE_NAME : string := "joshua.config".

(** [bundle_runner_text(mem)]: the launcher template with [mem] in place of
    its only [%s].  In the source the template is an ordinary (not raw)
    string literal, so each backslash that ends a line of the [exec]
    command joins that line to the next. *)
Definition bundle_runner_text (mem : string) : string :=
  Py.join Py.nl
    [ "#!/bin/bash";
      "# Licensed to the Apache Software Foundation (ASF) under one or more";
      "# contributor license agreements.  See the NOTICE file distributed with";
      "# this work for additional information regarding copyright ownership.";
      "# The ASF licenses this file to You under the Apache License, Version 2.0";
      "# (the " ++ Py.dq ++ "License" ++ Py.dq
        ++ "); you may not use this file except in compliance with";
      "# the License.  You may obtain a copy of the License at";
      "#";
      "#     http://www.apache.org/licenses/LICENSE-2.0";
      "#";
      "# Unless required by applicable law or agreed to in writing, software";
      "# distributed under the License is distributed on an " ++ Py.dq ++ "AS IS"
        ++ Py.dq ++ " BASIS,";
      "# WITHOUT WARRANTIES OR CONDITIONS OF ANY KIND, either express or implied.";
      "# See the License for the specific language governing permissions and";
      "# limitations under the License.";
      "";
      "# Joshua decoder invocation script.";
      "# ";
      "# This script takes care of passing arguments to Java and to the";
      "# Joshua decoder. It changes to the current directory so that paths in ";
      "# the config file are relative to the current directory. Usage:";
      "#";
      "# joshua [-m memory] [Joshua arguments]";
      "#";
      "# The default amount of memory is 4gb.";
      "";
      "NUM_ARGS=0";
      "E_OPTERROR=1";
      "";
      "## memory usage; default is 4 GB";
      "mem=" ++ mem;
      "";
      "if [[ $1 == " ++ Py.dq ++ "-m" ++ Py.dq ++ " ]]; then";
      "    mem=$2";
      "    shift";
      "    shift";
      "fi";
      "";
      "set -u";
      "";
      "bundledir=$(dirname $0)";
      "cd $bundledir   # relative paths are now safe....";
      "";
      "exec java -mx${mem} "
        ++ "    -Dfile.encoding=utf8 "
        ++ "    -Djava.library.path=./lib "
        ++ "    -cp ./target/joshua-*-jar-with-dependencies.jar "
        ++ "    org.apache.joshua.decoder.JoshuaDecoder -c joshua.config -v 0 "
        ++ Py.dq ++ "$@" ++ Py.dq;
      "" ].

(** ** Lines of a configuration *)

Module LineParts.
(** [LineParts = namedtuple('LineParts', ['config', 'comment'])] *)
Record t : Type := Make { config : string; comment : string }.
End LineParts.

Definition extract_line_parts (line : string) : LineParts.t :=
  let '(config, hash_char, comment) := Py.partition "#" line in
  LineParts.Make config comment.

(** [set(config_tokens) & set(FILE_TYPE_OPTIONS)] *)
Definition option_tokens (config_tokens : list string) : gset string :=
  list_to_set config_tokens ∩ list_to_set FILE_TYPE_OPTIONS.

Definition line_specifies_path (line : string) : bool :=
  let line_parts := extract_line_parts line in
  if String.eqb (LineParts.config line_parts) "" then false
  else
    let config_tokens := Py.split (LineParts.config line_parts) in
    match config_tokens with
    | [] => false
    | first :: _ =>
        if Py.contains first FILE_TYPE_TOKENS then true
        else if negb (bool_decide (option_tokens config_tokens = ∅)) then true
        else false
    end.

(** The [for path_opt in FILE_TYPE_OPTIONS] loop of [parse_path], from
    [path_index = -1]. *)
Fixpoint path_index_loop (path_opts config_tokens : list string) : Z :=
  match path_opts with
  | [] => -1
  | path_opt :: rest =>
      if Py.contains path_opt config_tokens
      then Z.of_nat (Py.index path_opt config_tokens) + 1
      else path_index_loop rest config_tokens
  end.

Definition parse_path (config_line : string) : result string :=
  let config_tokens := Py.split config_line in
  let path_index := path_index_loop FILE_TYPE_OPTIONS config_tokens in
  Py.getitem config_tokens path_index.

(** ** The planner's effects: the name registry and exceptions *)

(** A computation that reads and updates [duplicate_name_counts] and either
    returns or raises; the registry keeps the updates made before a raise. *)
Definition planner (A : Type) : Type :=
  gmap string nat -> result A * gmap string nat.

Definition ret {A} (a : A) : planner A := fun counts => (Ok a, counts).

Definition bind {A B} (m : planner A) (k : A -> planner B) : planner B :=
  fun counts =>
    match m counts with
    | (Ok a, counts') => k a counts'
    | (Raise e, counts') => (Raise e, counts')
    end.

Definition lift {A} (r : result A) : planner A := fun counts => (r, counts).

(** [try: m  except PathException as e: handler(e)] *)
Definition try_except_PathException {A} (m : planner A) (handler : exn -> planner A)
    : planner A :=
  fun counts =>
    match m counts with
    | (Raise e, counts') =>
        match exn_kind e with
        | PathException => handler e counts'
        | _ => (Raise e, counts')
        end
    | r => r
    end.

#[export] Instance planner_ret : MRet planner := @ret.
#[export] Instance planner_bind : MBind planner := fun A B k m => bind m k.

Definition get_unique_dest (name : string) : planner string :=
  fun duplicate_name_counts =>
    let times_seen := (default 0 (duplicate_name_counts !! name) + 1)%nat in
    let duplicate_name_counts := <[name := times_seen]> duplicate_name_counts in
    let '(pre_extension, extension) := OsPath.splitext name in
    let result :=
      if (1 <? times_seen)%nat
      then pre_extension ++ "." ++ Py.str_of_nat times_seen ++ extension
      else name in
    (Ok result, duplicate_name_counts).

(** ** Operations *)

(** The callable of an operation together with its arguments. *)
Inductive call : Type :=
  | rmtree (path : string)                                (* shutil.rmtree *)
  | makedirs (path : string)                              (* os.makedirs *)
  | recursive_copy (src dest : string) (symlink : bool)
  | write_string_to_file (path text : string)
  | chmod (path : string) (mode : Z).                     (* os.chmod *)

(** [(function, (arguments,), 'logging message')] *)
Record operation : Type := MkOp { op_call : call; op_msg : string }.

(** [stat] permission bits. *)
Module Stat.
Definition S_IREAD : Z := 256.   (* 0o400 *)
Definition S_IEXEC : Z := 64.    (* 0o100 *)
Definition S_IRGRP : Z := 32.    (* 0o040 *)
Definition S_IXGRP : Z := 8.     (* 0o010 *)
Definition S_IROTH : Z := 4.     (* 0o004 *)
Definition S_IXOTH : Z := 1.     (* 0o001 *)
Definition S_IWRITE : Z := 128.  (* 0o200 *)
Definition S_IWGRP : Z := 16.    (* 0o020 *)
Definition S_IWOTH : Z := 2.     (* 0o002 *)
End Stat.

Module Opts.
(** The namespace [handle_args] returns.  [config] is the file opened by
    [argparse.FileType('r')]: its [name] and what [read()] returns. *)
Record t : Type := Make {
  config_name : string;
  config_text : string;
  dest_dir : string;
  force : bool;
  copy_config_options : string;
  mem : string;
  verbose : bool;
  suppress_comments : bool;
  symlink : bool;
  absolute : bool;
  source : option string;
  normalizer : string;
  tokenizer : string;
  tmpdir : string
}.
End Opts.

(** ** The tool, over a file system and an environment *)

Section Tool.

(** The state of the file system, what the script asks of it, and what
    calling an operation's function does to it. *)
Variable fs : Type.
Variable path_exists : fs -> string -> bool.          (* os.path.exists *)
Variable open_read : fs -> string -> option string.   (* open(name, 'r').read() *)
Variable perform : call -> fs -> result () * fs.      (* func applied to args *)

(** [Popen(cmd, shell=True, stdin=PIPE, stdout=PIPE).communicate(input)]:
    the return code and the captured standard output. *)
Variable run_shell : string -> string -> Z * string.

(** [os.environ.get('JOSHUA')], asserted to be set at start-up. *)
Variable JOSHUA_PATH : string.

Definition default_normalizer : string :=
  OsPath.join JOSHUA_PATH ["scripts/preparation/normalize.pl"].
Definition default_tokenizer : string :=
  OsPath.join JOSHUA_PATH ["scripts/preparation/tokenize.pl"].

(** [filter_through_copy_config_script].  On a non-zero return code the
    source builds a [CalledProcessError] from a single argument; that
    constructor needs a return code and a command, so the call itself
    raises [TypeError]. *)
Definition filter_through_copy_config_script (config_text copy_configs : string)
    : result string :=
  let cmd := OsPath.join JOSHUA_PATH ["scripts/copy-config.pl"] ++ " " ++ copy_configs in
  let '(returncode, result) := run_shell cmd config_text in
  if negb (returncode =? 0) then
    Raise (MkExn TypeError "__init__() takes at least 3 arguments (2 given)")
  else Ok result.

Definition validate_path (disk : fs) (path : string) : result () :=
  if negb (path_exists disk path) then
    Raise (MkExn PathException
             ("The path " ++ Py.dq ++ path ++ Py.dq ++ " does not exist. Cannot proceed."))
  else Ok ().

Definition process_line_containing_path (disk : fs)
    (line dest_dir : string) (symlink absolute : bool)
    : planner (string * operation) :=
  let line_parts := extract_line_parts line in
  src_path ← lift (parse_path (LineParts.config line_parts));
  (* Determine a unique destination path *)
  let src_name := OsPath.basename src_path in
  dest_name ← get_unique_dest src_name;
  (* Generate an operation tuple *)
  let full_src_path := OsPath.normpath src_path in
  _ ← lift (validate_path disk full_src_path);
  let dest_path := OsPath.join dest_dir ["model"; dest_name] in
  let operation :=
    MkOp (recursive_copy full_src_path dest_path symlink)
         ("Making a copy of " ++ full_src_path ++ " at " ++ dest_path) in
  (* Update the config line *)
  let updated_config :=
    Py.replace (LineParts.config line_parts) src_path
      (if absolute then dest_path else OsPath.join "model" [dest_name]) in
  let line :=
    if negb (String.eqb (LineParts.comment line_parts) "")
    then Py.join "#" [updated_config; LineParts.comment line_parts]
    else updated_config in
  mret (line, operation).

(** *** Command line *)

Definition default_copy_config_options : string :=
  "-top-n 0 -output-format %S -mark-oovs false".

(** The namespace before any argument is read: every [default=], [False]
    for the [store_true] flags, [None] for [--source]. *)
Definition defaults (config_name config_text dest_dir : string) : Opts.t :=
  {| Opts.config_name := config_name;
     Opts.config_text := config_text;
     Opts.dest_dir := dest_dir;
     Opts.force := false;
     Opts.copy_config_options := default_copy_config_options;
     Opts.mem := "4g";
     Opts.verbose := false;
     Opts.suppress_comments := false;
     Opts.symlink := false;
     Opts.absolute := false;
     Opts.source := None;
     Opts.normalizer := default_normalizer;
     Opts.tokenizer := default_tokenizer;
     Opts.tmpdir := "/tmp" |}.

(** The options given on the command line, applied to the namespace. *)
Inductive setting : Type :=
  | set_force | set_verbose | set_suppress_comments | set_symlink | set_absolute
  | set_copy_config_options (v : string) | set_mem (v : string)
  | set_source (v : string) | set_normalizer (v : string)
  | set_tokenizer (v : string) | set_tmpdir (v : string).

Definition apply_setting (o : Opts.t) (s : setting) : Opts.t :=
  let 'Opts.Make cn ct dd f occ m v sc sy ab so no tk tm := o in
  match s with
  | set_force => Opts.Make cn ct dd true occ m v sc sy ab so no tk tm
  | set_verbose => Opts.Make cn ct dd f occ m true sc sy ab so no tk tm
  | set_suppress_comments => Opts.Make cn ct dd f occ m v true sy ab so no tk tm
  | set_symlink => Opts.Make cn ct dd f occ m v sc true ab so no tk tm
  | set_absolute => Opts.Make cn ct dd f occ m v sc sy true so no tk tm
  | set_copy_config_options x => Opts.Make cn ct dd f x m v sc sy ab so no tk tm
  | set_mem x => Opts.Make cn ct dd f occ x v sc sy ab so no tk tm
  | set_source x => Opts.Make cn ct dd f occ m v sc sy ab (Some x) no tk tm
  | set_normalizer x => Opts.Make cn ct dd f occ m v sc sy ab so x tk tm
  | set_tokenizer x => Opts.Make cn ct dd f occ m v sc sy ab so no x tm
  | set_tmpdir x => Opts.Make cn ct dd f occ m v sc sy ab so no tk x
  end.

(** The [add_argument] table: option strings of the [store_true] flags
    and of the options that take one value. *)
Definition flag_of (arg : string) : option setting :=
  if String.eqb arg "-f" || String.eqb arg "--force" then Some set_force
  else if String.eqb arg "-v" || String.eqb arg "--verbose" then Some set_verbose
  else if String.eqb arg "--no-comments" then Some set_suppress_comments
  else if String.eqb arg "--symlink" then Some set_symlink
  else if String.eqb arg "--absolute" then Some set_absolute
  else None.

Definition valued_of (arg : string) : option (string -> setting) :=
  if String.eqb arg "-o" || String.eqb arg "--copy-config-options"
  then Some set_copy_config_options
  else if String.eqb arg "-m" || String.eqb arg "--mem" then Some set_mem
  else if String.eqb arg "--source" then Some set_source
  else if String.eqb arg "--normalizer" then Some set_normalizer
  else if String.eqb arg "--tokenizer" then Some set_tokenizer
  else if String.eqb arg "-T" then Some set_tmpdir
  else None.

(** One pass over the arguments: the settings in order and the
    positional arguments in order; [None] is a usage error.  Covered are
    command lines that spell each option exactly as declared, with the
    value of a valued option as the next argument; [argparse]'s
    abbreviations and attached values are rejected here. *)
Fixpoint scan_args (clargs : list string) : option (list setting * list string) :=
  match clargs with
  | [] => Some ([], [])
  | arg :: rest =>
      match flag_of arg with
      | Some s =>
          '(ss, ps) ← scan_args rest; Some (s :: ss, ps)
      | None =>
          match valued_of arg with
          | Some mk =>
              match rest with
              | v :: rest' => '(ss, ps) ← scan_args rest'; Some (mk v :: ss, ps)
              | [] => None
              end
          | None =>
              if Py.startswith "-" arg && negb (String.eqb arg "-") then None
              else '(ss, ps) ← scan_args rest; Some (ss, arg :: ps)
          end
      end
  end.

(** [handle_args(clargs)]; [None] stands for [MyParser.error]: usage is
    printed and the process exits with status 2. *)
Definition handle_args (disk : fs) (clargs : list string) : option Opts.t :=
  match scan_args clargs with
  | Some (settings, [config; dest_dir]) =>
      text ← open_read disk config;
      Some (fold_left apply_setting settings (defaults config text dest_dir))
  | _ => None
  end.

(** *** Planning *)

(** The [except PathException as e] block of [collect_operations]: the
    message gets the file name and the line number, and [e] is raised
    again. *)
Definition number_error (opts : Opts.t) (line_num : nat) (e : exn) : exn :=
  MkExn (exn_kind e)
    ("ERROR: Configuration file " ++ Py.dq ++ Opts.config_name opts ++ Py.dq
       ++ " line " ++ Py.str_of_nat line_num ++ ": " ++ message e).

(** The [for i, line in enumerate(config_lines)] loop, from index [i]. *)
Fixpoint plan_lines (disk : fs) (opts : Opts.t) (i : nat) (config_lines : list string)
    (operations : list operation) (result_config_lines : list string)
    : planner (list operation * list string) :=
  match config_lines with
  | [] => mret (operations, result_config_lines)
  | line :: rest =>
      let line_num := (i + 1)%nat in
      if line_specifies_path line then
        '(line', operation) ←
          try_except_PathException
            (process_line_containing_path disk line (Opts.dest_dir opts)
               (Opts.symlink opts) (Opts.absolute opts))
            (fun e => lift (Raise (number_error opts line_num e)));
        plan_lines disk opts (S i) rest
          (operations ++ [operation])%list (result_config_lines ++ [line'])%list
      else
        plan_lines disk opts (S i) rest operations (result_config_lines ++ [line])%list
  end.

Definition runner_mode : Z :=
  Z.lor Stat.S_IREAD (Z.lor Stat.S_IRGRP (Z.lor Stat.S_IROTH
    (Z.lor Stat.S_IEXEC (Z.lor Stat.S_IXGRP Stat.S_IXOTH)))).

(** The body of the loop over the bundle runner scripts. *)
Definition add_runner (opts : Opts.t) (operations : list operation)
    (file : string * string) : list operation :=
  let '(file_name, file_text) := file in
  let path := OsPath.join (Opts.dest_dir opts) [file_name] in
  let operations :=
    (operations ++
      [MkOp (write_string_to_file path file_text)
            ("Writing the bundle runner file " ++ Py.dq ++ path ++ Py.dq)])%list in
  let mode := runner_mode in
  (operations ++ [MkOp (chmod path mode) "Making the bundle runner file executable"])%list.

Definition collect_operations (disk : fs) (opts : Opts.t) : planner (list operation) :=
  let operations : list operation := [] in
  (* Destination directory *)
  operations ←
    (if path_exists disk (Opts.dest_dir opts) then
       if negb (Opts.force opts) then
         lift (Raise (MkExn Exception
           ("ERROR: The destination directory exists: " ++ Py.dq ++ Opts.dest_dir opts
              ++ Py.dq ++ Py.nl
              ++ "Use -f or --force option to overwrite the directory.")))
       else
         mret (operations ++
           [MkOp (rmtree (Opts.dest_dir opts))
                 ("Forcing deletion of existing destination directory " ++ Py.dq
                    ++ Opts.dest_dir opts ++ Py.dq)])%list
     else mret operations);
  let operations :=
    (operations ++
      [MkOp (makedirs (OsPath.join (Opts.dest_dir opts) ["model"]))
            ("Creating destination directory " ++ Py.dq ++ Opts.dest_dir opts ++ Py.dq)])%list in
  (* Input joshua.config file *)
  let config_text := Opts.config_text opts in
  config_text ←
    (if negb (String.eqb (Opts.copy_config_options opts) "") then
       lift (filter_through_copy_config_script config_text (Opts.copy_config_options opts))
     else mret config_text);
  let config_lines := Py.split_on (ascii_of_nat 10) config_text in
  (* Files to copy *)
  '(operations, result_config_lines) ← plan_lines disk opts 0 config_lines operations [];
  (* Output joshua.config file *)
  let path := OsPath.join (Opts.dest_dir opts) [OUTPUT_CONFIG_FILE_NAME] in
  let text := Py.join Py.nl result_config_lines ++ Py.nl in
  let operations :=
    (operations ++
      [MkOp (write_string_to_file path text)
            ("Writing the updated joshua.config to " ++ path)])%list in
  (* Bundle runner scripts *)
  mret (fold_left (add_runner opts) [("joshua", bundle_runner_text (Opts.mem opts))]
          operations).

(** *** Execution *)

(** [execute_operations]: each function is called in turn on the file
    system; the operations whose call was started are recorded. *)
Fixpoint execute_operations (operations : list operation) (disk : fs)
    : result () * fs * list operation :=
  match operations with
  | [] => (Ok (), disk, [])
  | op :: rest =>
      match perform (op_call op) disk with
      | (Ok _, disk') =>
          let '(r, disk'', started) := execute_operations rest disk' in
          (r, disk'', op :: started)
      | (Raise e, disk') => (Raise e, disk', [op])
      end
  end.

Inductive error_log : Type :=
  | no_error
  | usage_error                 (* MyParser.error *)
  | logged (message : string).  (* error_quit *)

(** What a run leaves behind: the exit status, the error logged, the
    operations whose call was started, the file system. *)
Record outcome : Type := MkOutcome {
  exit_status : Z;
  error : error_log;
  executed : list operation;
  final : fs
}.

Definition error_quit (message : string) (started : list operation) (disk : fs)
    : outcome :=
  MkOutcome 2 (logged message) started disk.

(** [main(argv)], run once from an empty [duplicate_name_counts]. *)
Definition main (argv : list string) (disk : fs) : outcome :=
  match handle_args disk (tl argv) with
  | None => MkOutcome 2 usage_error [] disk
  | Some opts =>
      match collect_operations disk opts ∅ with
      | (Ok operations, _) =>
          match execute_operations operations disk with
          | (Ok _, disk', started) => MkOutcome 0 no_error started disk'
          | (Raise e, disk', started) => error_quit (message e) started disk'
          end
      | (Raise e, _) => error_quit (message e) [] disk
      end
  end.

End Tool.

Arguments validate_path {fs} path_exists disk path.
Arguments process_line_containing_path {fs} path_exists disk line dest_dir symlink absolute.
Arguments plan_lines {fs} path_exists disk opts i config_lines
  operations result_config_lines.
Arguments collect_operations {fs} path_exists run_shell JOSHUA_PATH disk opts.
Arguments handle_args {fs} open_read JOSHUA_PATH disk clargs.
Arguments execute_operations {fs} perform operations disk.
Arguments MkOutcome {fs} exit_status error executed final.
Arguments exit_status {fs} o.
Arguments error {fs} o.
Arguments executed {fs} o.
Arguments final {fs} o.
Arguments error_quit {fs} message started disk.
Arguments main {fs} path_exists open_read perform run_shell JOSHUA_PATH argv disk.

(** ** A small concrete world, for running the definitions

    The file system is the list of paths that exist together with the text
    of the readable files; every operation succeeds and records its
    destination; the shell command returns its input unchanged. *)
Module Sample.

Definition disk : Type := list (string * string).

Definition path_exists (d : disk) (p : string) : bool :=
  Py.contains p (map fst d).

Fixpoint open_read (d : disk) (p : string) : option string :=
  match d with
  | [] => None
  | (q, text) :: r => if String.eqb q p then Some text else open_read r p
  end.

Definition perform (c : call) (d : disk) : result () * disk :=
  match c with
  | rmtree p => (Ok (), filter (fun f => negb (String.eqb (fst f) p)) d)
  | makedirs p => (Ok (), (d ++ [(p, "")])%list)
  | recursive_copy src dest _ => (Ok (), (d ++ [(dest, default "" (open_read d src))])%list)
  | write_string_to_file p text => (Ok (), (d ++ [(p, text)])%list)
  | chmod _ _ => (Ok (), d)
  end.

Definition run_shell (cmd input : string) : Z * string := (0, input).

Definition JOSHUA_PATH : string := "/opt/joshua".

Definition process_line := process_line_containing_path path_exists.
Definition plan := plan_lines path_exists.
Definition collect := collect_operations path_exists run_shell JOSHUA_PATH.
Definition parse := handle_args open_read JOSHUA_PATH.
Definition run := main path_exists open_read perform run_shell JOSHUA_PATH.

End Sample.

(** ** Vocabulary of the properties *)

(** The destination namer called on each name of a list in turn. *)
Fixpoint assign_all (names : list string) : planner (list string) :=
  match names with
  | [] => mret []
  | name :: rest =>
      dest ← get_unique_dest name;
      dests ← assign_all rest;
      mret (dest :: dests)
  end.

(** How often [name] occurs in [names]. *)
Definition occurrences (name : string) (names : list string) : nat :=
  List.length (List.filter (String.eqb name) names).

(** [s] holds no comment marker. *)
Definition hash_free (s : string) : bool :=
  Py.all_chars (fun c => negb (Ascii.eqb c "#")) s.

Section Runs.

Context {fs : Type}.
Variable path_exists : fs -> string -> bool.
Variable run_shell : string -> string -> Z * string.
Variable JOSHUA_PATH : string.

(** The planner gets past the destination check: the destination does
    not exist, or [--force] was given. *)
Definition destination_clear (disk : fs) (opts : Opts.t) : bool :=
  negb (path_exists disk (Opts.dest_dir opts)) || Opts.force opts.

(** The operations queued before the first line is read. *)
Definition first_operations (disk : fs) (opts : Opts.t) : list operation :=
  ((if path_exists disk (Opts.dest_dir opts)
    then [MkOp (rmtree (Opts.dest_dir opts))
               ("Forcing deletion of existing destination directory " ++ Py.dq
                  ++ Opts.dest_dir opts ++ Py.dq)]
    else []) ++
   [MkOp (makedirs (OsPath.join (Opts.dest_dir opts) ["model"]))
         ("Creating destination directory " ++ Py.dq ++ Opts.dest_dir opts ++ Py.dq)])%list.

(** The lines the planner scans: the configuration text, passed through
    the external program when there are options for it, split at line
    feeds. *)
Definition input_lines (opts : Opts.t) : result (list string) :=
  if negb (String.eqb (Opts.copy_config_options opts) "") then
    match filter_through_copy_config_script run_shell JOSHUA_PATH
            (Opts.config_text opts) (Opts.copy_config_options opts) with
    | Ok text => Ok (Py.split_on (ascii_of_nat 10) text)
    | Raise e => Raise e
    end
  else Ok (Py.split_on (ascii_of_nat 10) (Opts.config_text opts)).

(** The lines [before] are planned without an error, from an empty
    registry, leaving the registry [counts]. *)
Definition planned (disk : fs) (opts : Opts.t) (before : list string)
    (counts : gmap string nat) : Prop :=
  exists operations lines,
    plan_lines path_exists disk opts 0 before [] [] ∅ = (Ok (operations, lines), counts).

End Runs.

(** The message of [validate_path]. *)
Definition missing_message (path : string) : string :=
  "The path " ++ Py.dq ++ path ++ Py.dq ++ " does not exist. Cannot proceed.".

(** The value an option string gives to [flag]: the token after the first
    token [flag]. *)
Fixpoint value_after (flag : string) (tokens : list string) : option string :=
  match tokens with
  | [] => None
  | f :: rest =>
      if String.eqb f flag then head rest else value_after flag rest
  end.

Definition option_value (flag options : string) : option string :=
  value_after flag (Py.split options).

(** [opts] for a configuration text that needs no external program. *)
Definition unfiltered (opts : Opts.t) (text : string) : Opts.t :=
  let 'Opts.Make cn _ dd f _ m v sc sy ab so no tk tm := opts in
  Opts.Make cn text dd f "" m v sc sy ab so no tk tm.

(** The options of a bare command line of the sample world. *)
Definition sample_disk : Sample.disk :=
  [("joshua.config",
    "lm = kenlm 5 false false 100 /data/lm.kenlm" ++ Py.nl
      ++ "tm = moses pt 0 /data/pt" ++ Py.nl
      ++ "top-n = 1");
   ("/data/lm.kenlm", "LM"); ("/data/pt", "PT")].

Definition sample_argv : list string :=
  ["copy_model.py"; "joshua.config"; "/out"].

(** [s] holds no path separator. *)
Definition slash_free (s : string) : bool :=
  Py.all_chars (fun c => negb (Ascii.eqb c "/")) s.

(** [s.find(old)]: the first position at which [old] starts in [s]. *)
Fixpoint first_occurrence (old s : string) : option nat :=
  if Py.startswith old s then Some O
  else
    match s with
    | "" => None
    | String _ r => option_map S (first_occurrence old r)
    end.

(** Replacement of the first occurrence only, [s.replace(old, new, 1)]. *)
Definition replace_first (old new s : string) : string :=
  match first_occurrence old s with
  | Some n => Py.take n s ++ new ++ Py.drop (n + String.length old) s
  | None => s
  end.

(** Replacement of every occurrence, left to right: up to the first
    occurrence the text stays, the occurrence becomes [new], and the text
    after it is treated the same way. *)
Inductive replaced_all (old new : string) : string -> string -> Prop :=
  | replaced_none s :
      first_occurrence old s = None ->
      replaced_all old new s s
  | replaced_next s n rest :
      first_occurrence old s = Some n ->
      replaced_all old new (Py.drop (n + String.length old) s) rest ->
      replaced_all old new s (Py.take n s ++ new ++ rest).

Definition sample_opts : Opts.t :=
  defaults Sample.JOSHUA_PATH "joshua.config"
    (default "" (Sample.open_read sample_disk "joshua.config")) "/out".

(** A disk whose configuration names a file that is not there, on its
    second line, and one whose second line ends with a flag. *)
Definition missing_disk : Sample.disk :=
  [("joshua.config",
    "lm = kenlm 5 false false 100 /data/lm.kenlm" ++ Py.nl
      ++ "tm = moses pt 0 /data/missing" ++ Py.nl
      ++ "top-n = 1");
   ("/data/lm.kenlm", "LM")].

Definition malformed_disk : Sample.disk :=
  [("joshua.config",
    "top-n = 1" ++ Py.nl
      ++ "feature-function = LanguageModel -lm_order 5 -lm_file");
   ("/data/lm.kenlm", "LM")].

(** ** The functions behind the operations *)

(** The library calls [recursive_copy] ends in. *)
Inductive file_call : Type :=
  | os_symlink (src dest : string)
  | shutil_copytree (src dest : string) (symlinks : bool)
  | shutil_copy (src dest : string).

(** The body of [recursive_copy(src, dest, symlink)], over [os.path.isdir]. *)
Definition recursive_copy_body (isdir : string -> bool) (src dest : string)
    (symlink : bool) : file_call :=
  if symlink then os_symlink src dest
  else if isdir src then shutil_copytree src dest true
  else shutil_copy src dest.

(** The lines of a configuration that are path-bearing. *)
Definition path_bearing (lines : list string) : list string :=
  List.filter line_specifies_path lines.

(** [s] holds no blank character. *)
Definition blank_free (s : string) : bool :=
  Py.all_chars (fun c => negb (Py.isspace c)) s.

Section Plans.

Context {fs : Type}.
Variable path_exists : fs -> string -> bool.

(** A copy as the planner queues it: from a source that exists, to a name
    without separator directly under [{dest_dir}/model], linking or
    copying as the options say. *)
Definition planned_copy (disk : fs) (opts : Opts.t) (op : operation) : Prop :=
  exists src name,
    op_call op =
      recursive_copy src (OsPath.join (Opts.dest_dir opts) ["model"; name])
        (Opts.symlink opts) /\
    path_exists disk src = true /\
    slash_free name = true.

(** The three operations every plan ends with, for the rewritten lines
    [ls]. *)
Definition last_operations (opts : Opts.t) (ls : list string) : list operation :=
  [MkOp (write_string_to_file
           (OsPath.join (Opts.dest_dir opts) [OUTPUT_CONFIG_FILE_NAME])
           (Py.join Py.nl ls ++ Py.nl))
        ("Writing the updated joshua.config to "
           ++ OsPath.join (Opts.dest_dir opts) [OUTPUT_CONFIG_FILE_NAME]);
   MkOp (write_string_to_file (OsPath.join (Opts.dest_dir opts) ["joshua"])
           (bundle_runner_text (Opts.mem opts)))
        ("Writing the bundle runner file " ++ Py.dq
           ++ OsPath.join (Opts.dest_dir opts) ["joshua"] ++ Py.dq);
   MkOp (chmod (OsPath.join (Opts.dest_dir opts) ["joshua"]) runner_mode)
        "Making the bundle runner file executable"].

End Plans.

(** The answer to a request for [name] that [earlier] requests for the
    same name have preceded. *)
Definition answer (name : string) (earlier : nat) : string :=
  match earlier with
  | O => name
  | S k => fst (OsPath.splitext name) ++ "." ++ Py.str_of_nat (S (S k))
             ++ snd (OsPath.splitext name)
  end.

(** ** More of the sample world *)

(** A shell in which the external program fails, and a file system in
    which nothing can be copied. *)
Definition failing_shell (cmd input : string) : Z * string := (1, "").

Definition refusing_perform (c : call) (d : Sample.disk) : result () * Sample.disk :=
  match c with
  | recursive_copy _ _ _ => (Raise (MkExn Exception "Permission denied"), d)
  | _ => Sample.perform c d
  end.

(** Options without external program, for a configuration without paths. *)
Definition plain_opts : Opts.t :=
  unfiltered sample_opts ("top-n = 1" ++ Py.nl ++ "mark-oovs = false").

(** A disk on which the destination is already there. *)
Definition occupied_disk : Sample.disk := ("/out", "") :: sample_disk.

(** The first two operations of the sample plan. *)
Definition sample_makedirs : operation :=
  MkOp (makedirs "/out/model")
       ("Creating destination directory " ++ Py.dq ++ "/out" ++ Py.dq).

Definition sample_copy : operation :=
  MkOp (recursive_copy "/data/lm.kenlm" "/out/model/lm.kenlm" false)
       "Making a copy of /data/lm.kenlm at /out/model/lm.kenlm".

(** * Properties *)

Example split_ex :
  Py.split "tm = moses  pt 0	phrase-table.packed " =
  ["tm"; "="; "moses"; "pt"; "0"; "phrase-table.packed"].
Proof. reflexivity. Qed.

Example replace_ex : Py.replace "tm = m" "m" "model/m" = "tmodel/m = model/m".
Proof. reflexivity. Qed.

Example replace_ex2 : Py.replace "aaa" "aa" "b" = "ba".
Proof. reflexivity. Qed.

Example replace_ex3 : Py.replace "abc" "" "X" = "XaXbXcX".
Proof. reflexivity. Qed.

Example splitext_ex :
  map OsPath.splitext ["lm.kenlm"; ".bashrc"; "a.b/c"; "x.tar.gz"; "..."; "a/.b.c"; "noext"] =
  [("lm", ".kenlm"); (".bashrc", ""); ("a.b/c", ""); ("x.tar", ".gz"); ("...", "");
   ("a/.b", ".c"); ("noext", "")].
Proof. reflexivity. Qed.

Example normpath_ex :
  map OsPath.normpath ["./lm.kenlm"; "/tmp/../a//b/"; ""; "//x"; "///x"; "a/../.."; "/.."; "a/b/../c"] =
  ["lm.kenlm"; "/a/b"; "."; "//x"; "/x"; ".."; "/"; "a/c"].
Proof. reflexivity. Qed.

Example basename_ex : map OsPath.basename ["/tmp/lm.kenlm"; "lm"; "a/b/"] = ["lm.kenlm"; "lm"; ""].
Proof. reflexivity. Qed.

Example join_ex :
  map (fun '(a, p) => OsPath.join a p)
    [("/foobar", ["model"; "lm.kenlm"]); ("", ["model"; "x"]); ("d/", ["model"; "/abs"])] =
  ["/foobar/model/lm.kenlm"; "model/x"; "/abs"].
Proof. reflexivity. Qed.

Example str_of_nat_ex : map Py.str_of_nat [0%nat; 2%nat; 10%nat; 123%nat] = ["0"; "2"; "10"; "123"].
Proof. reflexivity. Qed.


Example classify_ex :
  map line_specifies_path
    ["tm = thrax glue -1 1/data/tune/grammar.glue";
     "tm = moses -owner pt -maxspan 0 -path phrase-table.packed -max-source-len 5";
     "feature-function = WordPenalty";
     "feature-function = StateMinimizingLanguageModel -lm_type kenlm -lm_order 5 -lm_file expts/systems/es-en/1/lm.kenlm";
     "# Foo"; ""; "top-n = 1 # -path x"] =
  [true; true; false; true; false; false; false].
Proof. reflexivity. Qed.

Example parse_path_priority_ex :
  parse_path "feature-function = LM -lm_file a.kenlm -path b.packed" = Ok "b.packed".
Proof. reflexivity. Qed.

Example runner_mode_ex : runner_mode = 365.
Proof. reflexivity. Qed.

(** ** Strings *)

#[local] Arguments String.append (s1 s2)%_string_scope : simpl nomatch.

Lemma append_nil_r (s : string) : s ++ "" = s.
Proof. induction s as [|c r IH]; simpl; [reflexivity|now rewrite IH]. Qed.

Lemma append_assoc (a b c : string) : (a ++ b) ++ c = a ++ (b ++ c).
Proof. induction a as [|x r IH]; simpl; [reflexivity|now rewrite IH]. Qed.

Lemma take_drop (n : nat) (s : string) : Py.take n s ++ Py.drop n s = s.
Proof.
  revert s; induction n as [|n IH]; intros [|c r]; simpl; try reflexivity.
  now rewrite IH.
Qed.

Lemma rfind_lower (c : ascii) (s : string) : -1 <= Py.rfind c s.
Proof.
  induction s as [|a r IH]; simpl; [lia|].
  destruct (0 <=? Py.rfind c r) eqn:E; [apply Z.leb_le in E; lia|].
  destruct (Ascii.eqb a c); lia.
Qed.

(** At a position [rfind] reports, the needle is there. *)
Lemma rfind_found (c : ascii) (s : string) :
  0 <= Py.rfind c s ->
  exists r, Py.drop (Z.to_nat (Py.rfind c s)) s = String c r.
Proof.
  induction s as [|a r IH]; simpl; [lia|].
  destruct (0 <=? Py.rfind c r) eqn:E.
  - apply Z.leb_le in E. intros _.
    destruct (IH E) as [t Ht]. exists t.
    replace (Z.to_nat (Py.rfind c r + 1)) with (S (Z.to_nat (Py.rfind c r))) by lia.
    exact Ht.
  - destruct (Ascii.eqb a c) eqn:Eac; [|lia].
    intros _. apply Ascii.eqb_eq in Eac. subst a. now exists r.
Qed.

(** *** [os.path.splitext] *)

Lemma splitext_app (p : string) :
  fst (OsPath.splitext p) ++ snd (OsPath.splitext p) = p.
Proof.
  unfold OsPath.splitext.
  destruct (_ <? _); [|simpl; apply append_nil_r].
  destruct (OsPath.all_dots _); simpl; [apply append_nil_r|apply take_drop].
Qed.

Lemma splitext_ext (p : string) :
  snd (OsPath.splitext p) = "" \/ exists r, snd (OsPath.splitext p) = String "." r.
Proof.
  unfold OsPath.splitext.
  destruct (Py.rfind "/" p <? Py.rfind "." p) eqn:E; [|now left].
  destruct (OsPath.all_dots _); [now left|]. right. simpl.
  apply rfind_found. apply Z.ltb_lt in E. pose proof (rfind_lower "/" p). lia.
Qed.

(** ** The destination namer *)

(** One call, in terms of the count the registry holds for the name. *)
Lemma get_unique_dest_step (name : string) (counts : gmap string nat) :
  get_unique_dest name counts =
    (Ok (match default 0%nat (counts !! name) with
         | O => name
         | S k => fst (OsPath.splitext name) ++ "." ++ Py.str_of_nat (S (S k))
                    ++ snd (OsPath.splitext name)
         end),
     <[name := S (default 0%nat (counts !! name))]> counts).
Proof.
  unfold get_unique_dest.
  replace (default 0 (counts !! name) + 1)%nat with (S (default 0%nat (counts !! name))) by lia.
  destruct (OsPath.splitext name) as [stem ext]; simpl fst; simpl snd.
  destruct (default 0%nat (counts !! name)) as [|k]; reflexivity.
Qed.

Lemma occurrences_cons (name x : string) (l : list string) :
  occurrences name (x :: l) =
    ((if String.eqb name x then 1 else 0) + occurrences name l)%nat.
Proof. unfold occurrences; simpl. destruct (String.eqb name x); reflexivity. Qed.

(** The registry counts the earlier requests: after the names of [pre], the
    request for [name] is answered from its count before [pre] plus its
    occurrences in [pre]. *)
Lemma assign_all_at (pre post : list string) (name : string) (counts : gmap string nat) :
  exists dests counts',
    assign_all (pre ++ name :: post) counts = (Ok dests, counts') /\
    dests !! List.length pre =
      Some (match (default 0%nat (counts !! name) + occurrences name pre)%nat with
            | O => name
            | S k => fst (OsPath.splitext name) ++ "." ++ Py.str_of_nat (S (S k))
                       ++ snd (OsPath.splitext name)
            end).
Proof.
  revert counts; induction pre as [|x pre IH]; intros counts.
  - assert (Hpost : forall c, exists ds c', assign_all post c = (Ok ds, c')).
    { induction post as [|y post IHp]; intros c; [now eexists _, _|].
      cbn [assign_all]. unfold mbind, planner_bind, bind.
      rewrite get_unique_dest_step.
      destruct (IHp (<[y := S (default 0%nat (c !! y))]> c)) as (ds & c' & ->).
      now eexists _, _. }
    cbn [app assign_all]. unfold mbind, planner_bind, bind.
    rewrite get_unique_dest_step.
    destruct (Hpost (<[name := S (default 0%nat (counts !! name))]> counts)) as (ds & c' & ->).
    eexists _, _; split; [reflexivity|].
    unfold occurrences; simpl. now rewrite Nat.add_0_r.
  - cbn [app assign_all]. unfold mbind, planner_bind, bind.
    rewrite get_unique_dest_step.
    destruct (IH (<[x := S (default 0%nat (counts !! x))]> counts)) as (ds & c' & -> & Hds).
    eexists _, _; split; [reflexivity|].
    cbn [List.length]. simpl lookup. rewrite Hds. f_equal.
    rewrite occurrences_cons.
    destruct (String.eqb_spec name x) as [->|Hne].
    + rewrite lookup_insert_eq. simpl default.
      replace (S (default 0%nat (counts !! x)) + occurrences x pre)%nat
        with (default 0%nat (counts !! x) + (1 + occurrences x pre))%nat by lia.
      reflexivity.
    + rewrite lookup_insert_ne by congruence. reflexivity.
Qed.

(** C5. On its first request a basename is returned unchanged; the n-th
    request for the same basename (n >= 2, counting the requests for that
    basename from 1 within the run) returns [{stem}.{n}{ext}], where
    [(stem, ext) = os.path.splitext(basename)]: stem and extension make up
    the basename, and the extension is empty or begins with the dot. *)
Theorem get_unique_dest_nth_call (pre post : list string) (name : string) :
  let n := S (occurrences name pre) in
  let stem := fst (OsPath.splitext name) in
  let ext := snd (OsPath.splitext name) in
  (exists dests counts,
     assign_all (pre ++ name :: post) ∅ = (Ok dests, counts) /\
     dests !! List.length pre =
       Some (if Nat.eqb n 1 then name else stem ++ "." ++ Py.str_of_nat n ++ ext))
  /\ stem ++ ext = name
  /\ (ext = "" \/ exists r, ext = String "." r).
Proof.
  cbv zeta. split; [|split; [apply splitext_app|apply splitext_ext]].
  destruct (assign_all_at pre post name ∅) as (ds & c & H & Hds).
  exists ds, c; split; [exact H|].
  rewrite Hds, lookup_empty. simpl default. simpl Nat.add.
  destruct (occurrences name pre); reflexivity.
Qed.

(** C1. The registry counts requests per requested name and never looks at
    the names it has handed out: a basename that already has the shape of
    a generated name is returned as it is, and the second request for the
    plain basename then generates that same name again. *)
Theorem get_unique_dest_collision :
  exists dests counts,
    assign_all ["lm.2.kenlm"; "lm.kenlm"; "lm.kenlm"] ∅ = (Ok dests, counts) /\
    dests = ["lm.2.kenlm"; "lm.kenlm"; "lm.2.kenlm"] /\
    ~ NoDup dests.
Proof.
  eexists _, _. split; [vm_compute; reflexivity|]. split; [reflexivity|].
  intros H. apply NoDup_cons in H as [H _]. apply H. set_solver.
Qed.

(** ** What a string is made of *)

Section Characters.

Variable P : ascii -> bool.

Lemma all_chars_app (a b : string) :
  Py.all_chars P (a ++ b) = Py.all_chars P a && Py.all_chars P b.
Proof.
  induction a as [|c r IH]; simpl; [reflexivity|].
  now rewrite IH, andb_assoc.
Qed.

Lemma all_chars_take (n : nat) (s : string) :
  Py.all_chars P s = true -> Py.all_chars P (Py.take n s) = true.
Proof.
  revert s; induction n as [|n IH]; intros [|c r]; simpl; try reflexivity.
  intros H. apply andb_true_iff in H as [Hc Hr]. now rewrite Hc, (IH _ Hr).
Qed.

Lemma all_chars_drop (n : nat) (s : string) :
  Py.all_chars P s = true -> Py.all_chars P (Py.drop n s) = true.
Proof.
  revert s; induction n as [|n IH]; intros [|c r]; simpl; try tauto.
  intros H. apply andb_true_iff in H as [_ Hr]. now apply IH.
Qed.

(** The words of [s.split()] are not empty and are made of characters of
    [s]. *)
Lemma split_run_chars (s : string) :
  Py.all_chars P s = true ->
  Py.all_chars P (fst (Py.split_run s)) = true /\
  Forall (fun w => w <> "" /\ Py.all_chars P w = true) (snd (Py.split_run s)).
Proof.
  induction s as [|c r IH]; simpl; [intros _; split; [reflexivity|constructor]|].
  intros H. apply andb_true_iff in H as [Hc Hr].
  destruct (IH Hr) as [Hw Hws]. destruct (Py.split_run r) as [w ws]; simpl in *.
  destruct (Py.isspace c); simpl.
  - split; [reflexivity|]. unfold Py.cons_word.
    destruct (String.eqb_spec w ""); [exact Hws|]. constructor; [tauto|exact Hws].
  - split; [now rewrite Hc, Hw|exact Hws].
Qed.

Lemma split_chars (s t : string) :
  Py.all_chars P s = true -> In t (Py.split s) ->
  t <> "" /\ Py.all_chars P t = true.
Proof.
  intros H Hin. unfold Py.split in Hin.
  destruct (split_run_chars s H) as [Hw Hws].
  destruct (Py.split_run s) as [w ws]; simpl in *.
  unfold Py.cons_word in Hin. rewrite Forall_forall in Hws.
  destruct (String.eqb_spec w "").
  - apply Hws, list_elem_of_In, Hin.
  - destruct Hin as [<-|Hin]; [tauto|]. apply Hws, list_elem_of_In, Hin.
Qed.

Lemma basename_chars (p : string) :
  Py.all_chars P p = true -> Py.all_chars P (OsPath.basename p) = true.
Proof. apply all_chars_drop. Qed.

Lemma splitext_chars (p : string) :
  Py.all_chars P p = true ->
  Py.all_chars P (fst (OsPath.splitext p)) = true /\
  Py.all_chars P (snd (OsPath.splitext p)) = true.
Proof.
  intros H. unfold OsPath.splitext.
  destruct (_ <? _); [|now split].
  destruct (OsPath.all_dots _); [now split|].
  split; [now apply all_chars_take|now apply all_chars_drop].
Qed.

Lemma intersperse_chars (new s : string) :
  Py.all_chars P new = true -> Py.all_chars P s = true ->
  Py.all_chars P (Py.intersperse new s) = true.
Proof.
  intros Hn. induction s as [|c r IH]; simpl; [tauto|].
  intros H. apply andb_true_iff in H as [Hc Hr].
  rewrite all_chars_app, Hn. simpl. now rewrite Hc, (IH Hr).
Qed.

Lemma replace_from_chars (old new : string) (s : string) :
  Py.all_chars P new = true -> Py.all_chars P s = true ->
  forall skip, Py.all_chars P (Py.replace_from old new skip s) = true.
Proof.
  intros Hn. induction s as [|c r IH]; simpl; [reflexivity|].
  intros H skip. apply andb_true_iff in H as [Hc Hr].
  destruct skip as [|k]; [|now apply IH].
  destruct (Py.startswith old (String c r)).
  - now rewrite all_chars_app, Hn, (IH Hr).
  - simpl. now rewrite Hc, (IH Hr).
Qed.

Lemma replace_chars (s old new : string) :
  Py.all_chars P new = true -> Py.all_chars P s = true ->
  Py.all_chars P (Py.replace s old new) = true.
Proof.
  intros Hn Hs. unfold Py.replace. destruct old.
  - now apply intersperse_chars.
  - now apply replace_from_chars.
Qed.

(** Decimal numerals and the dot belong to [P]. *)
Hypothesis P_dot : P "." = true.
Hypothesis P_digit : forall c, In c (list_ascii_of_string "0123456789") -> P c = true.

Lemma str_of_nat_chars (n : nat) : Py.all_chars P (Py.str_of_nat n) = true.
Proof.
  unfold Py.str_of_nat. induction (Nat.to_uint n) as [|u IH|u IH|u IH|u IH|u IH|u IH|u IH|u IH|u IH|u IH];
    simpl; [reflexivity|..]; rewrite IH, P_digit; simpl; tauto.
Qed.

Lemma get_unique_dest_chars (name : string) (counts : gmap string nat) :
  Py.all_chars P name = true ->
  exists dest,
    get_unique_dest name counts =
      (Ok dest, <[name := S (default 0%nat (counts !! name))]> counts) /\
    Py.all_chars P dest = true.
Proof.
  intros H. rewrite get_unique_dest_step. eexists; split; [reflexivity|].
  destruct (default 0%nat (counts !! name)); [exact H|].
  destruct (splitext_chars name H) as [Hs He].
  rewrite !all_chars_app, Hs, He, str_of_nat_chars. cbn [Py.all_chars].
  now rewrite P_dot.
Qed.

End Characters.

(** ** Lists of tokens *)

Lemma contains_In (x : string) (l : list string) :
  Py.contains x l = true <-> In x l.
Proof.
  induction l as [|y l IH]; simpl; [split; [discriminate|tauto]|].
  rewrite orb_true_iff, IH, String.eqb_eq. tauto.
Qed.

Lemma contains_not_In (x : string) (l : list string) :
  Py.contains x l = false <-> ~ In x l.
Proof. rewrite <- contains_In. destruct (Py.contains x l); split; congruence. Qed.

Lemma option_tokens_inhabited (tokens : list string) :
  bool_decide (option_tokens tokens = ∅) = false <->
  exists t, In t tokens /\ (t = "-path" \/ t = "-lm_file").
Proof.
  rewrite bool_decide_eq_false. unfold option_tokens, FILE_TYPE_OPTIONS. split.
  - intros H. apply set_choose_L in H as [t Ht]. exists t.
    apply elem_of_intersection in Ht as [H1 H2].
    apply elem_of_list_to_set, list_elem_of_In in H1.
    apply elem_of_list_to_set, list_elem_of_In in H2.
    split; [exact H1|]. simpl in H2. intuition congruence.
  - intros (t & Hin & Ht) Hempty.
    assert (t ∈ (∅ : gset string)) as Habs; [|set_solver].
    rewrite <- Hempty. apply elem_of_intersection. split.
    + now apply elem_of_list_to_set, list_elem_of_In.
    + apply elem_of_list_to_set, list_elem_of_In. simpl. intuition congruence.
Qed.

(** ** Splitting off the comment *)

Lemma partition_spec (c : ascii) (s : string) :
  let '(a, h, b) := Py.partition c s in
  Py.all_chars (fun x => negb (Ascii.eqb x c)) a = true /\
  ((h = "" /\ b = "" /\ s = a) \/ (h = String c "" /\ s = a ++ String c b)).
Proof.
  induction s as [|x r IH]; simpl; [tauto|].
  destruct (Ascii.eqb x c) eqn:E.
  - apply Ascii.eqb_eq in E; subst x. simpl. split; [reflexivity|right; tauto].
  - destruct (Py.partition c r) as [[a h] b]. simpl. rewrite E. simpl.
    destruct IH as [Ha [(-> & -> & ->)|(-> & ->)]]; (split; [exact Ha|]); [left|right]; tauto.
Qed.

Lemma partition_at_marker (c : ascii) (a b : string) :
  Py.all_chars (fun x => negb (Ascii.eqb x c)) a = true ->
  Py.partition c (a ++ String c b) = (a, String c "", b).
Proof.
  induction a as [|x r IH]; simpl.
  - intros _. now rewrite Ascii.eqb_refl.
  - intros H. apply andb_true_iff in H as [Hx Hr]. apply negb_true_iff in Hx.
    rewrite Hx, (IH Hr). reflexivity.
Qed.

Lemma partition_no_marker (c : ascii) (a : string) :
  Py.all_chars (fun x => negb (Ascii.eqb x c)) a = true ->
  Py.partition c a = (a, "", "").
Proof.
  induction a as [|x r IH]; simpl; [reflexivity|].
  intros H. apply andb_true_iff in H as [Hx Hr]. apply negb_true_iff in Hx.
  rewrite Hx, (IH Hr). reflexivity.
Qed.

(** The config portion holds no marker, and the line is the config portion
    alone or the config portion, the marker and the comment portion. *)
Lemma extract_line_parts_spec (line : string) :
  let parts := extract_line_parts line in
  hash_free (LineParts.config parts) = true /\
  ((line = LineParts.config parts /\ LineParts.comment parts = "") \/
   line = LineParts.config parts ++ "#" ++ LineParts.comment parts).
Proof.
  unfold extract_line_parts, hash_free.
  pose proof (partition_spec "#" line) as H.
  destruct (Py.partition "#" line) as [[a h] b]. simpl.
  destruct H as [Ha [(_ & -> & ->)|(_ & ->)]]; (split; [exact Ha|]); [left|right]; tauto.
Qed.

Lemma extract_line_parts_marked (config comment : string) :
  hash_free config = true ->
  extract_line_parts (config ++ "#" ++ comment) = LineParts.Make config comment.
Proof.
  intros H. unfold extract_line_parts.
  change (config ++ "#" ++ comment) with (config ++ String "#" comment).
  now rewrite (partition_at_marker _ _ _ H).
Qed.

Lemma extract_line_parts_unmarked (config : string) :
  hash_free config = true ->
  extract_line_parts config = LineParts.Make config "".
Proof.
  intros H. unfold extract_line_parts. now rewrite (partition_no_marker _ _ H).
Qed.

(** ** The line classifier *)

(** The classifier reads the config portion only. *)
Lemma line_specifies_path_config (line : string) :
  line_specifies_path line =
  line_specifies_path (LineParts.config (extract_line_parts line)).
Proof.
  destruct (extract_line_parts_spec line) as [Hfree _].
  unfold line_specifies_path at 2.
  rewrite (extract_line_parts_unmarked _ Hfree). reflexivity.
Qed.

(** The classifier in terms of the tokens of the config portion. *)
Lemma line_specifies_path_tokens (line : string) :
  line_specifies_path line = true <->
  (exists first rest,
     Py.split (LineParts.config (extract_line_parts line)) = first :: rest /\
     (first = "lm" \/ first = "tm")) \/
  (exists t,
     In t (Py.split (LineParts.config (extract_line_parts line))) /\
     (t = "-path" \/ t = "-lm_file")).
Proof.
  unfold line_specifies_path.
  destruct (String.eqb_spec (LineParts.config (extract_line_parts line)) "") as [->|_].
  { split; [discriminate|]. intros [(f & r & H & _)|(t & H & _)]; [discriminate H|destruct H]. }
  destruct (Py.split _) as [|first rest] eqn:Etok.
  { split; [discriminate|]. intros [(f & r & H & _)|(t & H & _)]; [discriminate H|destruct H]. }
  destruct (Py.contains first FILE_TYPE_TOKENS) eqn:Efirst.
  { split; [intros _|reflexivity]. left. exists first, rest. split; [reflexivity|].
    apply contains_In in Efirst. simpl in Efirst. intuition congruence. }
  destruct (bool_decide (option_tokens (first :: rest) = ∅)) eqn:Eopt; simpl.
  - split; [discriminate|]. intros [(f & r & H & Hf)|H].
    + injection H as <- <-. apply contains_not_In in Efirst. exfalso. apply Efirst.
      simpl. intuition congruence.
    + apply (proj2 (option_tokens_inhabited (first :: rest))) in H. congruence.
  - split; [intros _|reflexivity]. right.
    now apply (proj1 (option_tokens_inhabited (first :: rest))).
Qed.

(** C3. A line is path-bearing exactly when, in the whitespace tokens of
    its config portion (the text before the first [#]), the first token is
    [lm] or [tm] or some token is [-path] or [-lm_file]; every other line is
    not path-bearing, and the text after the marker never matters. *)
Theorem line_specifies_path_allow_list (line : string) :
  let config := LineParts.config (extract_line_parts line) in
  let tokens := Py.split config in
  (line_specifies_path line = true <->
     (exists first rest, tokens = first :: rest /\ (first = "lm" \/ first = "tm")) \/
     (exists t, In t tokens /\ (t = "-path" \/ t = "-lm_file")))
  /\ hash_free config = true
  /\ (line = config \/ exists comment, line = config ++ "#" ++ comment)
  /\ (forall comment, line_specifies_path (config ++ "#" ++ comment)
                      = line_specifies_path line).
Proof.
  cbv zeta. destruct (extract_line_parts_spec line) as [Hfree Hline].
  split; [apply line_specifies_path_tokens|split; [exact Hfree|split]].
  - destruct Hline as [[H _]|H]; [now left|right; eauto].
  - intros comment. rewrite (line_specifies_path_config line).
    rewrite (line_specifies_path_config (_ ++ "#" ++ comment)).
    now rewrite (extract_line_parts_marked _ _ Hfree).
Qed.

(** ** The path extractor *)

Lemma contains_middle (x : string) (pre post : list string) :
  Py.contains x (pre ++ x :: post) = true.
Proof. apply contains_In, in_or_app. right. now left. Qed.

Lemma index_first (x : string) (pre post : list string) :
  ~ In x pre -> Py.index x (pre ++ x :: post) = List.length pre.
Proof.
  induction pre as [|y pre IH]; simpl; intros H.
  - now rewrite String.eqb_refl.
  - destruct (String.eqb_spec y x) as [->|_]; [exfalso; apply H; now left|].
    f_equal. apply IH. intros Hin. apply H. now right.
Qed.

Lemma getitem_at {A : Type} (pre post : list A) (t : A) :
  Py.getitem (pre ++ t :: post) (Z.of_nat (List.length pre)) = Ok t.
Proof.
  unfold Py.getitem. rewrite length_app. cbn [List.length].
  destruct (Z.ltb_spec (Z.of_nat (List.length pre)) 0) as [H|_]; [lia|].
  destruct (Z.ltb_spec (Z.of_nat (List.length pre)) 0) as [H|_]; [lia|].
  destruct (Z.leb_spec (Z.of_nat (List.length pre + S (List.length post)))
              (Z.of_nat (List.length pre))) as [H|_]; [lia|].
  simpl orb. cbv iota. rewrite Nat2Z.id, nth_error_app2 by lia.
  now rewrite Nat.sub_diag.
Qed.

Lemma getitem_last {A : Type} (ts : list A) (t : A) :
  Py.getitem (ts ++ [t]) (-1) = Ok t.
Proof.
  unfold Py.getitem. rewrite length_app. cbn [List.length].
  change (-1 <? 0) with true. cbv iota.
  replace (-1 + Z.of_nat (List.length ts + 1)) with (Z.of_nat (List.length ts)) by lia.
  destruct (Z.ltb_spec (Z.of_nat (List.length ts)) 0) as [H|_]; [lia|].
  destruct (Z.leb_spec (Z.of_nat (List.length ts + 1))
              (Z.of_nat (List.length ts))) as [H|_]; [lia|].
  simpl orb. cbv iota. rewrite Nat2Z.id, nth_error_app2 by lia.
  now rewrite Nat.sub_diag.
Qed.

Lemma getitem_past {A : Type} (l : list A) :
  Py.getitem l (Z.of_nat (List.length l)) =
  Raise (MkExn IndexError "list index out of range").
Proof.
  unfold Py.getitem.
  destruct (Z.ltb_spec (Z.of_nat (List.length l)) 0) as [H|_]; [lia|].
  destruct (Z.ltb_spec (Z.of_nat (List.length l)) 0) as [H|_]; [lia|].
  destruct (Z.leb_spec (Z.of_nat (List.length l)) (Z.of_nat (List.length l))) as [_|H];
    [reflexivity|lia].
Qed.

Lemma getitem_In {A : Type} (l : list A) (i : Z) (a : A) :
  Py.getitem l i = Ok a -> In a l.
Proof.
  unfold Py.getitem. destruct (_ || _); [discriminate|].
  destruct (nth_error l _) eqn:E; [|discriminate].
  intros [= <-]. eapply nth_error_In, E.
Qed.

(** The index the flag loop chooses: one past the first [-path]; failing
    that, one past the first [-lm_file]; failing that, [-1]. *)
Lemma path_index_path (pre post : list string) :
  ~ In "-path" pre ->
  path_index_loop FILE_TYPE_OPTIONS (pre ++ "-path" :: post)
  = Z.of_nat (List.length pre) + 1.
Proof.
  intros H. unfold FILE_TYPE_OPTIONS, path_index_loop.
  now rewrite contains_middle, index_first.
Qed.

Lemma path_index_lm_file (pre post : list string) :
  ~ In "-path" (pre ++ "-lm_file" :: post) -> ~ In "-lm_file" pre ->
  path_index_loop FILE_TYPE_OPTIONS (pre ++ "-lm_file" :: post)
  = Z.of_nat (List.length pre) + 1.
Proof.
  intros Hp H. unfold FILE_TYPE_OPTIONS, path_index_loop.
  apply contains_not_In in Hp. rewrite Hp.
  now rewrite contains_middle, index_first.
Qed.

Lemma path_index_none (tokens : list string) :
  ~ In "-path" tokens -> ~ In "-lm_file" tokens ->
  path_index_loop FILE_TYPE_OPTIONS tokens = -1.
Proof.
  intros Hp Hl. unfold FILE_TYPE_OPTIONS, path_index_loop.
  apply contains_not_In in Hp, Hl. now rewrite Hp, Hl.
Qed.

Lemma getitem_after {A : Type} (pre post : list A) (flag t : A) :
  Py.getitem (pre ++ flag :: t :: post) (Z.of_nat (List.length pre) + 1) = Ok t.
Proof.
  replace (pre ++ flag :: t :: post)%list with ((pre ++ [flag]) ++ t :: post)%list
    by now rewrite <- app_assoc.
  replace (Z.of_nat (List.length pre) + 1) with (Z.of_nat (List.length (pre ++ [flag])%list))
    by (rewrite length_app; simpl; lia).
  apply getitem_at.
Qed.

(** C4. The path is the token that follows the first [-path]; when there
    is no [-path], the token that follows the first [-lm_file]; when there
    is neither flag, the last token, which a path-bearing line always has. *)
Theorem parse_path_token (line : string) :
  let config := LineParts.config (extract_line_parts line) in
  let tokens := Py.split config in
  (forall pre t post,
     tokens = (pre ++ "-path" :: t :: post)%list -> ~ In "-path" pre ->
     parse_path config = Ok t)
  /\ (forall pre t post,
        ~ In "-path" tokens ->
        tokens = (pre ++ "-lm_file" :: t :: post)%list -> ~ In "-lm_file" pre ->
        parse_path config = Ok t)
  /\ (~ In "-path" tokens -> ~ In "-lm_file" tokens ->
      (forall ts t, tokens = (ts ++ [t])%list -> parse_path config = Ok t)
      /\ (line_specifies_path line = true ->
          exists ts t, tokens = (ts ++ [t])%list /\ parse_path config = Ok t)).
Proof.
  cbv zeta. unfold parse_path. repeat split.
  - intros pre t post -> H. rewrite (path_index_path _ _ H). apply getitem_after.
  - intros pre t post Hp E H. rewrite E in Hp |- *.
    rewrite (path_index_lm_file _ _ Hp H). apply getitem_after.
  - intros ts t E. rewrite (path_index_none _ H H0), E. apply getitem_last.
  - intros Hline. rewrite (path_index_none _ H H0).
    apply line_specifies_path_tokens in Hline.
    destruct (Py.split _) as [|first rest] eqn:E.
    { destruct Hline as [(f & r & Hf & _)|(t & Ht & _)]; [discriminate Hf|destruct Ht]. }
    destruct (exists_last (l := first :: rest)) as (ts & t & ->); [discriminate|].
    exists ts, t. split; [reflexivity|apply getitem_last].
Qed.

(** ** Processing one line *)

Section Planning.

Context {fs : Type}.
Variable path_exists : fs -> string -> bool.
Variable open_read : fs -> string -> option string.
Variable perform : call -> fs -> result () * fs.
Variable run_shell : string -> string -> Z * string.
Variable JOSHUA_PATH : string.

Local Abbreviation process := (process_line_containing_path path_exists).
Local Abbreviation plan := (plan_lines path_exists).
Local Abbreviation collect := (collect_operations path_exists run_shell JOSHUA_PATH).
Local Abbreviation run := (main path_exists open_read perform run_shell JOSHUA_PATH).
Local Abbreviation lines_of := (input_lines run_shell JOSHUA_PATH).
Local Abbreviation clear := (destination_clear path_exists).

Lemma process_line_malformed disk line dest_dir symlink absolute counts e :
  parse_path (LineParts.config (extract_line_parts line)) = Raise e ->
  process disk line dest_dir symlink absolute counts = (Raise e, counts).
Proof.
  intros H. unfold process_line_containing_path, mbind, planner_bind, bind, lift.
  now rewrite H.
Qed.

Lemma process_line_missing disk line dest_dir symlink absolute counts p :
  parse_path (LineParts.config (extract_line_parts line)) = Ok p ->
  path_exists disk (OsPath.normpath p) = false ->
  process disk line dest_dir symlink absolute counts =
    (Raise (MkExn PathException (missing_message (OsPath.normpath p))),
     snd (get_unique_dest (OsPath.basename p) counts)).
Proof.
  intros H E. unfold process_line_containing_path, mbind, planner_bind, bind, lift.
  rewrite H, get_unique_dest_step. unfold validate_path. now rewrite E.
Qed.

Lemma process_line_found disk (line dest_dir : string) (symlink absolute : bool)
    counts p :
  parse_path (LineParts.config (extract_line_parts line)) = Ok p ->
  path_exists disk (OsPath.normpath p) = true ->
  forall dest_name counts',
    get_unique_dest (OsPath.basename p) counts = (Ok dest_name, counts') ->
    let parts := extract_line_parts line in
    let dest_path := OsPath.join dest_dir ["model"; dest_name] in
    let updated :=
      Py.replace (LineParts.config parts) p
        (if absolute then dest_path else OsPath.join "model" [dest_name]) in
    process disk line dest_dir symlink absolute counts =
      (Ok (if negb (String.eqb (LineParts.comment parts) "")
           then updated ++ "#" ++ LineParts.comment parts else updated,
           MkOp (recursive_copy (OsPath.normpath p) dest_path symlink)
                ("Making a copy of " ++ OsPath.normpath p ++ " at " ++ dest_path)),
       counts').
Proof.
  intros H E dest_name counts' Hd. cbv zeta.
  unfold process_line_containing_path, mbind, planner_bind, bind, lift.
  rewrite H, Hd. unfold validate_path. rewrite E. reflexivity.
Qed.

(** A successful call, read backwards. *)
Lemma process_line_inv disk line dest_dir symlink absolute counts line' op counts' :
  process disk line dest_dir symlink absolute counts = (Ok (line', op), counts') ->
  exists p dest_name,
    parse_path (LineParts.config (extract_line_parts line)) = Ok p /\
    path_exists disk (OsPath.normpath p) = true /\
    get_unique_dest (OsPath.basename p) counts = (Ok dest_name, counts').
Proof.
  intros H.
  destruct (parse_path (LineParts.config (extract_line_parts line))) as [p|e] eqn:Ep.
  2:{ rewrite (process_line_malformed _ _ _ _ _ _ _ Ep) in H. discriminate. }
  destruct (path_exists disk (OsPath.normpath p)) eqn:Ex.
  2:{ rewrite (process_line_missing _ _ _ _ _ _ _ Ep Ex) in H. discriminate. }
  pose proof (get_unique_dest_step (OsPath.basename p) counts) as Ed.
rewrite (process_line_found _ _ _ _ _ _ _ Ep Ex _ _ Ed) in H.
injection H as _ _ Hc. subst counts'.
exists p. eexists. split; [reflexivity|]. split; [exact Ex|exact Ed].
Qed.

(** ** The loop over the lines *)

Lemma plan_lines_skip disk opts i line rest ops ls counts :
  line_specifies_path line = false ->
  plan disk opts i (line :: rest) ops ls counts =
  plan disk opts (S i) rest ops (ls ++ [line])%list counts.
Proof. intros H. cbn [plan_lines]. now rewrite H. Qed.

Lemma plan_lines_step disk opts i line rest ops ls counts line' op counts' :
  line_specifies_path line = true ->
  process disk line (Opts.dest_dir opts) (Opts.symlink opts) (Opts.absolute opts) counts
    = (Ok (line', op), counts') ->
  plan disk opts i (line :: rest) ops ls counts =
  plan disk opts (S i) rest (ops ++ [op])%list (ls ++ [line'])%list counts'.
Proof.
  intros H E. cbn [plan_lines]. rewrite H.
  unfold mbind, planner_bind, bind, try_except_PathException. now rewrite E.
Qed.

(** An exception leaves the loop as it is, unless it is a [PathException],
    which leaves with the file name and the line number in its message. *)
Lemma plan_lines_raise disk opts i line rest ops ls counts e counts' :
  line_specifies_path line = true ->
  process disk line (Opts.dest_dir opts) (Opts.symlink opts) (Opts.absolute opts) counts
    = (Raise e, counts') ->
  plan disk opts i (line :: rest) ops ls counts =
  (Raise (match exn_kind e with
          | PathException => number_error opts (i + 1) e
          | _ => e
          end), counts').
Proof.
  intros H E. cbn [plan_lines]. rewrite H.
  unfold mbind, planner_bind, bind, try_except_PathException. rewrite E.
  destruct (exn_kind e); reflexivity.
Qed.

(** The accumulators are only ever extended. *)
Lemma plan_lines_acc disk opts lines : forall i ops ls counts,
  plan disk opts i lines ops ls counts =
  match plan disk opts i lines [] [] counts with
  | (Ok (dops, dls), counts') => (Ok (ops ++ dops, ls ++ dls)%list, counts')
  | (Raise e, counts') => (Raise e, counts')
  end.
Proof.
  induction lines as [|line rest IH]; intros i ops ls counts.
  - cbn. now rewrite !app_nil_r.
  - destruct (line_specifies_path line) eqn:Hl.
    + destruct (process disk line (Opts.dest_dir opts) (Opts.symlink opts)
                  (Opts.absolute opts) counts) as [[[line' op]|e] c] eqn:E.
      * rewrite !(plan_lines_step _ _ _ _ _ _ _ _ _ _ _ Hl E).
        rewrite (IH _ (ops ++ [op])%list), (IH (S i) ([] ++ [op])%list ([] ++ [line'])%list).
        destruct (plan disk opts (S i) rest [] [] c) as [[[dops dls]|e'] c']; [|reflexivity].
        now rewrite <- !app_assoc.
      * now rewrite !(plan_lines_raise _ _ _ _ _ _ _ _ _ _ Hl E).
    + rewrite !(plan_lines_skip _ _ _ _ _ _ _ _ Hl).
      rewrite (IH _ ops), (IH (S i) [] ([] ++ [line])%list).
      destruct (plan disk opts (S i) rest [] [] counts) as [[[dops dls]|e'] c']; [|reflexivity].
      now rewrite <- !app_assoc.
Qed.

Lemma plan_lines_app disk opts l1 l2 : forall i ops ls counts,
  plan disk opts i (l1 ++ l2) ops ls counts =
  match plan disk opts i l1 ops ls counts with
  | (Ok (ops', ls'), counts') =>
      plan disk opts (i + List.length l1) l2 ops' ls' counts'
  | (Raise e, counts') => (Raise e, counts')
  end.
Proof.
  induction l1 as [|line rest IH]; intros i ops ls counts.
  - cbn. now rewrite Nat.add_0_r.
  - cbn [app List.length]. destruct (line_specifies_path line) eqn:Hl.
    + destruct (process disk line (Opts.dest_dir opts) (Opts.symlink opts)
                  (Opts.absolute opts) counts) as [[[line' op]|e] c] eqn:E.
      * rewrite !(plan_lines_step _ _ _ _ _ _ _ _ _ _ _ Hl E), IH.
        now replace (S i + List.length rest)%nat with (i + S (List.length rest))%nat by lia.
      * now rewrite !(plan_lines_raise _ _ _ _ _ _ _ _ _ _ Hl E).
    + rewrite !(plan_lines_skip _ _ _ _ _ _ _ _ Hl), IH.
      now replace (S i + List.length rest)%nat with (i + S (List.length rest))%nat by lia.
Qed.

(** A line that cannot be processed, whatever the registry holds, stops
    the loop: at that line, or earlier. *)
Lemma plan_lines_abort disk opts line lines :
  line_specifies_path line = true ->
  (forall counts, exists e counts',
     process disk line (Opts.dest_dir opts) (Opts.symlink opts) (Opts.absolute opts) counts
       = (Raise e, counts')) ->
  In line lines ->
  forall i ops ls counts, exists e counts',
    plan disk opts i lines ops ls counts = (Raise e, counts').
Proof.
  intros Hl Hfail. induction lines as [|x rest IH]; intros Hin i ops ls counts; [destruct Hin|].
  destruct (String.eqb_spec x line) as [->|Hne].
  - destruct (Hfail counts) as (e & c & E).
    rewrite (plan_lines_raise _ _ _ _ _ _ _ _ _ _ Hl E). eauto.
  - assert (Hrest : In line rest) by (destruct Hin; [congruence|assumption]).
    destruct (line_specifies_path x) eqn:Hx.
    + destruct (process disk x (Opts.dest_dir opts) (Opts.symlink opts)
                  (Opts.absolute opts) counts) as [[[x' op]|e] c] eqn:E.
      * rewrite (plan_lines_step _ _ _ _ _ _ _ _ _ _ _ Hx E). apply IH, Hrest.
      * rewrite (plan_lines_raise _ _ _ _ _ _ _ _ _ _ Hx E). eauto.
    + rewrite (plan_lines_skip _ _ _ _ _ _ _ _ Hx). apply IH, Hrest.
Qed.

(** ** The whole plan *)

Lemma collect_blocked disk opts counts :
  clear disk opts = false ->
  exists e, collect disk opts counts = (Raise e, counts) /\ exn_kind e = Exception.
Proof.
  unfold destination_clear. intros H. apply orb_false_iff in H as [Hex Hf].
  apply negb_false_iff in Hex.
  unfold collect_operations, mbind, planner_bind, bind, lift.
  rewrite Hex, Hf. simpl. eauto.
Qed.

Lemma collect_plan disk opts counts :
  clear disk opts = true ->
  collect disk opts counts =
  match lines_of opts with
  | Raise e => (Raise e, counts)
  | Ok lines =>
      match plan disk opts 0 lines (first_operations path_exists disk opts) [] counts with
      | (Ok (ops, ls), counts') =>
          (Ok (fold_left (add_runner opts)
                 [("joshua", bundle_runner_text (Opts.mem opts))]
                 (ops ++
                  [MkOp (write_string_to_file
                           (OsPath.join (Opts.dest_dir opts) [OUTPUT_CONFIG_FILE_NAME])
                           (Py.join Py.nl ls ++ Py.nl))
                        ("Writing the updated joshua.config to "
                           ++ OsPath.join (Opts.dest_dir opts) [OUTPUT_CONFIG_FILE_NAME])])%list),
           counts')
      | (Raise e, counts') => (Raise e, counts')
      end
  end.
Proof.
  unfold destination_clear. intros H.
  unfold collect_operations, first_operations, input_lines.
  unfold mbind, planner_bind, bind, lift, mret, planner_ret, ret.
  destruct (path_exists disk (Opts.dest_dir opts)); simpl in H.
  - rewrite H. cbn [negb app].
    destruct (negb (String.eqb (Opts.copy_config_options opts) "")).
    + destruct (filter_through_copy_config_script _ _ _ _) as [text|e]; [|reflexivity].
      destruct (plan_lines _ _ _ _ _ _ _ _) as [[[ops ls]|e] c]; reflexivity.
    + destruct (plan_lines _ _ _ _ _ _ _ _) as [[[ops ls]|e] c]; reflexivity.
  - cbn [app].
    destruct (negb (String.eqb (Opts.copy_config_options opts) "")).
    + destruct (filter_through_copy_config_script _ _ _ _) as [text|e]; [|reflexivity].
      destruct (plan_lines _ _ _ _ _ _ _ _) as [[[ops ls]|e] c]; reflexivity.
    + destruct (plan_lines _ _ _ _ _ _ _ _) as [[[ops ls]|e] c]; reflexivity.
Qed.

(** A failed plan ends the run before anything is executed. *)
Lemma main_plan_failed argv disk opts e counts :
  handle_args open_read JOSHUA_PATH disk (tl argv) = Some opts ->
  collect disk opts ∅ = (Raise e, counts) ->
  run argv disk = MkOutcome 2 (logged (message e)) [] disk.
Proof. intros Ha Hc. unfold main. now rewrite Ha, Hc. Qed.

Lemma run_abort argv disk opts line lines :
  handle_args open_read JOSHUA_PATH disk (tl argv) = Some opts ->
  lines_of opts = Ok lines ->
  line_specifies_path line = true ->
  (forall counts, exists e counts',
     process disk line (Opts.dest_dir opts) (Opts.symlink opts) (Opts.absolute opts) counts
       = (Raise e, counts')) ->
  In line lines ->
  exit_status (run argv disk) = 2 /\
  (exists m, error (run argv disk) = logged m) /\
  executed (run argv disk) = [] /\
  final (run argv disk) = disk.
Proof.
  intros Ha Hlines Hl Hfail Hin.
  assert (exists e c, collect disk opts ∅ = (Raise e, c)) as (e & c & Hc).
  { destruct (clear disk opts) eqn:Hclear.
    - rewrite (collect_plan _ _ _ Hclear), Hlines.
      destruct (plan_lines_abort disk opts line lines Hl Hfail Hin 0%nat
                  (first_operations path_exists disk opts) [] ∅) as (e & c & ->).
      eauto.
    - destruct (collect_blocked _ _ ∅ Hclear) as (e & -> & _). eauto. }
  rewrite (main_plan_failed _ _ _ _ _ Ha Hc). simpl. eauto.
Qed.

End Planning.

(** ** Errors while planning *)

Section Failures.

Context {fs : Type}.
Variable path_exists : fs -> string -> bool.
Variable open_read : fs -> string -> option string.
Variable perform : call -> fs -> result () * fs.
Variable run_shell : string -> string -> Z * string.
Variable JOSHUA_PATH : string.

Local Abbreviation process := (process_line_containing_path path_exists).
Local Abbreviation plan := (plan_lines path_exists).
Local Abbreviation collect := (collect_operations path_exists run_shell JOSHUA_PATH).
Local Abbreviation parse := (handle_args open_read JOSHUA_PATH).
Local Abbreviation run := (main path_exists open_read perform run_shell JOSHUA_PATH).
Local Abbreviation lines_of := (input_lines run_shell JOSHUA_PATH).
Local Abbreviation clear := (destination_clear path_exists).

(** The plan up to a line that is reached: the lines before it are
    planned, the loop stands at that line with their registry, and an
    exception raised there is the outcome of the whole plan. *)
Lemma collect_reaches disk opts before line after counts :
  clear disk opts = true ->
  lines_of opts = Ok (before ++ line :: after)%list ->
  planned path_exists disk opts before counts ->
  exists ops ls, forall e counts',
    plan disk opts (List.length before) (line :: after) ops ls counts = (Raise e, counts') ->
    collect disk opts ∅ = (Raise e, counts').
Proof.
  intros Hclear Hlines (dops & dls & Hbefore).
  exists (first_operations path_exists disk opts ++ dops)%list, dls.
  intros e counts' E.
  rewrite (collect_plan _ _ _ _ _ _ Hclear), Hlines, plan_lines_app.
  rewrite plan_lines_acc, Hbefore. cbn [app Nat.add]. now rewrite E.
Qed.

(** C6. A config portion whose matched flag is its final token is
    path-bearing, and extracting its path raises [IndexError].  The
    exception is not a [PathException]: the loop over the lines lets it
    pass as it is, without file name or line number.  The run that reaches
    the line ends with that error logged and status 2; a run whose lines
    contain it ends with status 2 in any case, and executes nothing. *)
Theorem malformed_line_is_fatal (line : string) (pre : list string) (flag : string) :
  let config := LineParts.config (extract_line_parts line) in
  let e := MkExn IndexError "list index out of range" in
  Py.split config = (pre ++ [flag])%list ->
  ~ In "-path" pre ->
  flag = "-path" \/ (flag = "-lm_file" /\ ~ In "-lm_file" pre) ->
  line_specifies_path line = true
  /\ parse_path config = Raise e
  /\ (forall disk opts i rest ops ls counts,
        plan disk opts i (line :: rest) ops ls counts = (Raise e, counts))
  /\ (forall disk opts argv before after counts,
        parse disk (tl argv) = Some opts ->
        clear disk opts = true ->
        lines_of opts = Ok (before ++ line :: after)%list ->
        planned path_exists disk opts before counts ->
        collect disk opts ∅ = (Raise e, counts) /\
        run argv disk = MkOutcome 2 (logged "list index out of range") [] disk)
  /\ (forall disk opts argv lines,
        parse disk (tl argv) = Some opts ->
        lines_of opts = Ok lines ->
        In line lines ->
        exit_status (run argv disk) = 2 /\
        (exists m, error (run argv disk) = logged m) /\
        executed (run argv disk) = [] /\
        final (run argv disk) = disk).
Proof.
  cbv zeta. intros Htok Hpath Hflag.
  assert (Hline : line_specifies_path line = true).
  { apply line_specifies_path_tokens. right. exists flag. rewrite Htok. split.
    - apply in_or_app. right. now left.
    - tauto. }
  assert (Hparse : parse_path (LineParts.config (extract_line_parts line))
                   = Raise (MkExn IndexError "list index out of range")).
  { unfold parse_path. rewrite Htok.
    replace (pre ++ [flag])%list with (pre ++ flag :: [])%list by reflexivity.
    destruct Hflag as [->|[-> Hlm]].
    - rewrite (path_index_path _ _ Hpath).
      replace (Z.of_nat (List.length pre) + 1)
        with (Z.of_nat (List.length (pre ++ ["-path"])%list))
        by (rewrite length_app; simpl; lia).
      apply getitem_past.
    - rewrite path_index_lm_file; [|
        intros Hin; apply in_app_or in Hin as [Hin|[Hin|[]]]; [tauto|discriminate]|exact Hlm].
      replace (Z.of_nat (List.length pre) + 1)
        with (Z.of_nat (List.length (pre ++ ["-lm_file"])%list))
        by (rewrite length_app; simpl; lia).
      apply getitem_past. }
  assert (Hplan : forall disk opts i rest ops ls counts,
            plan disk opts i (line :: rest) ops ls counts
            = (Raise (MkExn IndexError "list index out of range"), counts)).
  { intros. erewrite plan_lines_raise; [|exact Hline|].
    2:{ apply process_line_malformed, Hparse. }
    reflexivity. }
  split; [exact Hline|]. split; [exact Hparse|]. split; [exact Hplan|]. split.
  - intros disk opts argv before after counts Hargs Hclear Hlines Hbefore.
    destruct (collect_reaches _ _ _ _ _ _ Hclear Hlines Hbefore) as (ops & ls & Hc).
    specialize (Hc _ _ (Hplan _ _ _ _ _ _ _)). split; [exact Hc|].
    now rewrite (main_plan_failed _ _ _ _ _ _ _ _ _ _ Hargs Hc).
  - intros disk opts argv lines Hargs Hlines Hin.
    eapply run_abort; eauto.
    intros counts. eexists _, _. apply process_line_malformed, Hparse.
Qed.

(** *** The configuration file of a command line *)





End Failures.

(** ** The launcher and the defaults *)

Section Defaults.

Context {fs : Type}.
Variable path_exists : fs -> string -> bool.
Variable open_read : fs -> string -> option string.
Variable run_shell : string -> string -> Z * string.
Variable JOSHUA_PATH : string.

Local Abbreviation plan := (plan_lines path_exists).
Local Abbreviation collect := (collect_operations path_exists run_shell JOSHUA_PATH).
Local Abbreviation parse := (handle_args open_read JOSHUA_PATH).
Local Abbreviation lines_of := (input_lines run_shell JOSHUA_PATH).
Local Abbreviation clear := (destination_clear path_exists).

Lemma collect_ok_clear disk opts counts ops counts' :
  collect disk opts counts = (Ok ops, counts') -> clear disk opts = true.
Proof.
  intros H. destruct (clear disk opts) eqn:E; [reflexivity|].
  destruct (collect_blocked path_exists run_shell JOSHUA_PATH disk opts counts E)
    as (e & He & _).
  rewrite He in H. discriminate.
Qed.

(** C9, as the code has it.  A plan ends with the write of the launcher to
    [{dest_dir}/joshua] and, right after it, the chmod of that file; the
    mode is 0555: read and execute for owner, group and others, and no
    write permission for anyone. *)
Theorem runner_chmod_follows_write disk (opts : Opts.t) counts ops counts' :
  collect disk opts counts = (Ok ops, counts') ->
  let path := OsPath.join (Opts.dest_dir opts) ["joshua"] in
  (exists earlier,
     ops = (earlier ++
            [MkOp (write_string_to_file path (bundle_runner_text (Opts.mem opts)))
                  ("Writing the bundle runner file " ++ Py.dq ++ path ++ Py.dq);
             MkOp (chmod path runner_mode)
                  "Making the bundle runner file executable"])%list)
  /\ runner_mode = 5 * 64 + 5 * 8 + 5
  /\ Forall (fun bit => Z.land runner_mode bit = bit)
       [Stat.S_IREAD; Stat.S_IEXEC; Stat.S_IRGRP; Stat.S_IXGRP; Stat.S_IROTH; Stat.S_IXOTH]
  /\ Forall (fun bit => Z.land runner_mode bit = 0)
       [Stat.S_IWRITE; Stat.S_IWGRP; Stat.S_IWOTH].
Proof.
  intros H. cbv zeta. split; [|split; [reflexivity|split; repeat constructor]].
  pose proof (collect_ok_clear _ _ _ _ _ H) as Hclear.
  rewrite (collect_plan path_exists run_shell JOSHUA_PATH _ _ _ Hclear) in H.
  destruct (lines_of opts) as [lines|e]; [|discriminate].
  destruct (plan disk opts 0 lines _ [] counts) as [[[pops ls]|e] c]; [|discriminate].
  injection H as <- <-. eexists. cbn [fold_left add_runner].
  rewrite <- app_assoc. reflexivity.
Qed.

(** The loop reads four fields of the options. *)
Lemma plan_lines_ext disk (o1 o2 : Opts.t) lines :
  Opts.config_name o1 = Opts.config_name o2 ->
  Opts.dest_dir o1 = Opts.dest_dir o2 ->
  Opts.symlink o1 = Opts.symlink o2 ->
  Opts.absolute o1 = Opts.absolute o2 ->
  forall i ops ls counts,
    plan disk o1 i lines ops ls counts = plan disk o2 i lines ops ls counts.
Proof.
  intros Hn Hd Hs Ha. induction lines as [|line rest IH]; intros i ops ls counts;
    [reflexivity|].
  cbn [plan_lines]. destruct (line_specifies_path line); [|apply IH].
  unfold mbind, planner_bind, bind, try_except_PathException, number_error, lift.
  rewrite Hn, Hd, Hs, Ha.
  destruct (process_line_containing_path _ _ _ _ _ _ _) as [[[line' op]|e] c];
    [apply IH|destruct (exn_kind e); reflexivity].
Qed.

Lemma not_dash_positional (arg : string) :
  Py.startswith "-" arg = false ->
  flag_of arg = None /\ valued_of arg = None.
Proof.
  intros H. unfold flag_of, valued_of.
  repeat match goal with
  | |- context [String.eqb arg ?lit] =>
      destruct (String.eqb_spec arg lit) as [->|_]; [discriminate H|]
  end.
  split; reflexivity.
Qed.

(** C8, as the code has it.  Without [-o] the option string is
    [-top-n 0 -output-format %S -mark-oovs false]: top-n is 0, the output
    format is [%S], OOV marking is off.  The string is not empty, so the
    configuration text goes through [copy-config.pl] called with it, and
    planning continues on the program's output. *)
Theorem default_options_forwarded disk (config dest_dir text : string) :
  Py.startswith "-" config = false ->
  Py.startswith "-" dest_dir = false ->
  open_read disk config = Some text ->
  exists opts,
    parse disk [config; dest_dir] = Some opts
    /\ Opts.copy_config_options opts = "-top-n 0 -output-format %S -mark-oovs false"
    /\ option_value "-top-n" (Opts.copy_config_options opts) = Some "0"
    /\ option_value "-output-format" (Opts.copy_config_options opts) = Some "%S"
    /\ option_value "-mark-oovs" (Opts.copy_config_options opts) = Some "false"
    /\ (clear disk opts = true ->
        forall counts,
          collect disk opts counts =
          let cmd := OsPath.join JOSHUA_PATH ["scripts/copy-config.pl"] ++ " "
                       ++ "-top-n 0 -output-format %S -mark-oovs false" in
          let '(returncode, out) := run_shell cmd text in
          if returncode =? 0 then collect disk (unfiltered opts out) counts
          else (Raise (MkExn TypeError "__init__() takes at least 3 arguments (2 given)"),
                counts)).
Proof.
  intros Hc Hd Hopen.
  destruct (not_dash_positional _ Hc) as [Hc1 Hc2].
  destruct (not_dash_positional _ Hd) as [Hd1 Hd2].
  exists (defaults JOSHUA_PATH config text dest_dir).
  split.
  { unfold handle_args. cbn [scan_args]. rewrite Hc1, Hc2, Hd1, Hd2, Hc, Hd.
    cbn. rewrite Hopen. reflexivity. }
  split; [reflexivity|]. split; [reflexivity|]. split; [reflexivity|].
  split; [reflexivity|].
  intros Hclear counts. cbv zeta.
  rewrite (collect_plan path_exists run_shell JOSHUA_PATH _ _ _ Hclear).
  unfold input_lines at 1, filter_through_copy_config_script.
  cbn [defaults Opts.copy_config_options Opts.config_text default_copy_config_options].
  change (negb (String.eqb "-top-n 0 -output-format %S -mark-oovs false" "")) with true.
  cbv iota.
  destruct (run_shell _ text) as [returncode out].
  destruct (returncode =? 0); [|reflexivity]. cbn [negb].
  rewrite (collect_plan path_exists run_shell JOSHUA_PATH disk
             (unfiltered (defaults JOSHUA_PATH config text dest_dir) out) counts Hclear).
  unfold input_lines. cbn [unfiltered defaults Opts.copy_config_options Opts.config_text].
  change (negb (String.eqb "" "")) with false. cbv iota.
  rewrite (plan_lines_ext disk (unfiltered (defaults JOSHUA_PATH config text dest_dir) out)
             (defaults JOSHUA_PATH config text dest_dir)) by reflexivity.
  reflexivity.
Qed.

End Defaults.

(** C9, as stated: the mode queued for the launcher is not 0755 (493). *)
Lemma runner_mode_is_not_0755 :
  exists opts ops counts,
    Sample.parse sample_disk (tl sample_argv) = Some opts /\
    Sample.collect sample_disk opts ∅ = (Ok ops, counts) /\
    last (map op_call ops) = Some (chmod "/out/joshua" 365) /\
    365 <> 7 * 64 + 5 * 8 + 5.
Proof.
  eexists _, _, _. split; [reflexivity|]. split; [vm_compute; reflexivity|].
  split; [reflexivity|lia].
Qed.

(** C8, as stated: the default option string does not set top-n to 1. *)
Lemma default_top_n_is_not_1 :
  exists opts,
    Sample.parse sample_disk (tl sample_argv) = Some opts /\
    option_value "-top-n" (Opts.copy_config_options opts) = Some "0" /\
    option_value "-top-n" (Opts.copy_config_options opts) <> Some "1".
Proof.
  eexists. split; [reflexivity|]. split; [reflexivity|discriminate].
Qed.

(** ** Destination names and paths *)

Lemma rfind_absent (c : ascii) (s : string) :
  Py.rfind c s < 0 -> Py.all_chars (fun x => negb (Ascii.eqb x c)) s = true.
Proof.
  induction s as [|a r IH]; simpl; [reflexivity|].
  destruct (Z.leb_spec 0 (Py.rfind c r)) as [H|H]; [lia|].
  destruct (Ascii.eqb a c); [lia|]. intros _. now rewrite IH.
Qed.

(** Nothing after the last occurrence is the needle. *)
Lemma rfind_tail (c : ascii) (s : string) :
  Py.all_chars (fun x => negb (Ascii.eqb x c))
    (Py.drop (Z.to_nat (Py.rfind c s + 1)) s) = true.
Proof.
  induction s as [|a r IH]; simpl; [reflexivity|].
  destruct (Z.leb_spec 0 (Py.rfind c r)) as [H|H].
  - replace (Z.to_nat (Py.rfind c r + 1 + 1)) with (S (Z.to_nat (Py.rfind c r + 1))) by lia.
    exact IH.
  - destruct (Ascii.eqb a c) eqn:E; simpl.
    + now apply rfind_absent.
    + rewrite E. simpl. now apply rfind_absent.
Qed.

Lemma basename_slash_free (p : string) : slash_free (OsPath.basename p) = true.
Proof. apply rfind_tail. Qed.

Lemma startswith_absent (c : ascii) (s : string) :
  Py.all_chars (fun x => negb (Ascii.eqb x c)) s = true ->
  Py.startswith (String c "") s = false.
Proof.
  destruct s as [|a r]; simpl; [reflexivity|].
  intros H. apply andb_true_iff in H as [H _]. apply negb_true_iff in H.
  rewrite Ascii.eqb_sym, H. reflexivity.
Qed.

(** A destination name never brings a separator of its own. *)
Lemma get_unique_dest_basename (p : string) (counts : gmap string nat) :
  exists dest,
    get_unique_dest (OsPath.basename p) counts =
      (Ok dest, <[OsPath.basename p :=
                   S (default 0%nat (counts !! OsPath.basename p))]> counts) /\
    slash_free dest = true.
Proof.
  apply get_unique_dest_chars; [reflexivity| |apply basename_slash_free].
  intros c Hc. simpl in Hc. repeat (destruct Hc as [<-|Hc]; [reflexivity|]). destruct Hc.
Qed.

Lemma join_model (dest_name : string) :
  slash_free dest_name = true ->
  OsPath.join "model" [dest_name] = "model/" ++ dest_name.
Proof.
  intros H. unfold OsPath.join, OsPath.join2. cbn [fold_left].
  now rewrite (startswith_absent "/" _ H).
Qed.

Lemma join2_hash_free (path b : string) :
  hash_free path = true -> hash_free b = true -> hash_free (OsPath.join2 path b) = true.
Proof.
  unfold hash_free, OsPath.join2. intros Hp Hb.
  destruct (Py.startswith "/" b); [exact Hb|].
  destruct (_ || _); rewrite !all_chars_app, Hp, ?Hb; reflexivity.
Qed.

Lemma get_unique_dest_hash_free (name : string) (counts : gmap string nat) :
  hash_free name = true ->
  exists dest,
    get_unique_dest name counts =
      (Ok dest, <[name := S (default 0%nat (counts !! name))]> counts) /\
    hash_free dest = true.
Proof.
  intros H. apply get_unique_dest_chars; [reflexivity| |exact H].
  intros c Hc. simpl in Hc. repeat (destruct Hc as [<-|Hc]; [reflexivity|]). destruct Hc.
Qed.

(** ** Rewriting a line *)

Section Rewriting.

Context {fs : Type}.
Variable path_exists : fs -> string -> bool.

Local Abbreviation process := (process_line_containing_path path_exists).

(** The path of a line is a token of its config portion: it is not empty
    and holds no comment marker. *)
Lemma parse_path_token_of_config (line p : string) :
  parse_path (LineParts.config (extract_line_parts line)) = Ok p ->
  p <> "" /\ hash_free p = true.
Proof.
  intros H. unfold parse_path in H. apply getitem_In in H.
  destruct (extract_line_parts_spec line) as [Hfree _].
  exact (split_chars _ _ _ Hfree H).
Qed.

(** C10. The rewritten line is the updated config portion alone when the
    comment portion is empty, as it is for a line that ends with its only
    marker: no marker is written back, and outside absolute mode with a
    marker in the destination directory the result holds none at all.
    With a comment portion that is not empty the result is the updated
    config portion, the marker and the comment portion. *)
Theorem empty_comment_drops_marker disk (line dest_dir : string) (symlink absolute : bool)
    counts line' op counts' :
  process disk line dest_dir symlink absolute counts = (Ok (line', op), counts') ->
  let config := LineParts.config (extract_line_parts line) in
  let comment := LineParts.comment (extract_line_parts line) in
  exists src dest_name,
    parse_path config = Ok src /\
    get_unique_dest (OsPath.basename src) counts = (Ok dest_name, counts') /\
    let updated :=
      Py.replace config src
        (if absolute then OsPath.join dest_dir ["model"; dest_name]
         else OsPath.join "model" [dest_name]) in
    (comment = "" -> line' = updated)
    /\ (line = config ++ "#" -> line' = updated)
    /\ (comment = "" -> absolute = false \/ hash_free dest_dir = true ->
        hash_free line' = true)
    /\ (comment <> "" -> line' = updated ++ "#" ++ comment).
Proof.
  intros H. cbv zeta.
  destruct (process_line_inv _ _ _ _ _ _ _ _ _ _ H) as (p & dest_name & Hp & Hex & Hd).
  exists p, dest_name. split; [exact Hp|]. split; [exact Hd|].
  rewrite (process_line_found _ _ _ _ _ _ _ _ Hp Hex _ _ Hd) in H.
  injection H as Hline _. cbv zeta in Hline.
  destruct (extract_line_parts_spec line) as [Hfree Hshape].
  assert (Hempty : LineParts.comment (extract_line_parts line) = "" ->
                   line' = Py.replace (LineParts.config (extract_line_parts line)) p
                             (if absolute then OsPath.join dest_dir ["model"; dest_name]
                              else OsPath.join "model" [dest_name])).
  { intros E. rewrite E in Hline. exact (eq_sym Hline). }
  split; [exact Hempty|]. split; [|split].
  - intros E. apply Hempty.
    pose proof (extract_line_parts_marked _ "" Hfree) as Hm.
    change (?c ++ "#" ++ "") with (c ++ "#") in Hm.
    rewrite <- E in Hm. now rewrite Hm.
  - intros E Hmode. rewrite (Hempty E).
    destruct (parse_path_token_of_config _ _ Hp) as [_ Hpfree].
    destruct (get_unique_dest_hash_free _ counts
                (basename_chars _ _ Hpfree)) as (d & Hd' & Hdfree).
    rewrite Hd in Hd'. injection Hd' as -> _.
    apply replace_chars; [|exact Hfree].
    destruct absolute.
    + destruct Hmode as [Hmode|Hmode]; [discriminate|].
      unfold OsPath.join. cbn [fold_left].
      apply join2_hash_free; [apply join2_hash_free; [exact Hmode|reflexivity]|exact Hdfree].
    + unfold OsPath.join. cbn [fold_left]. apply join2_hash_free; [reflexivity|exact Hdfree].
  - intros E. apply String.eqb_neq in E. rewrite E in Hline. cbn [negb] in Hline.
    rewrite <- Hline. reflexivity.
Qed.

End Rewriting.

(** ** [str.replace] replaces every occurrence *)

Lemma startswith_split (old s : string) :
  Py.startswith old s = true -> s = old ++ Py.drop (String.length old) s.
Proof.
  revert s; induction old as [|a old IH]; intros s; simpl; [reflexivity|].
  destruct s as [|b s]; [discriminate|].
  intros H. apply andb_true_iff in H as [Hab Hs]. apply Ascii.eqb_eq in Hab. subst b.
  simpl. f_equal. apply IH, Hs.
Qed.

Lemma first_occurrence_spec (old s : string) :
  match first_occurrence old s with
  | Some n =>
      s = Py.take n s ++ old ++ Py.drop (n + String.length old) s /\
      forall m, (m < n)%nat -> Py.startswith old (Py.drop m s) = false
  | None => forall m, Py.startswith old (Py.drop m s) = false
  end.
Proof.
  induction s as [|c r IH].
  - simpl. destruct (Py.startswith old "") eqn:E.
    + split; [exact (startswith_split _ _ E)|]. intros m Hm. lia.
    + intros [|m]; exact E.
  - cbn [first_occurrence]. destruct (Py.startswith old (String c r)) eqn:E.
    + split; [exact (startswith_split _ _ E)|]. intros m Hm. lia.
    + destruct (first_occurrence old r) as [n|]; cbn [option_map].
      * destruct IH as [Hs Hbefore]. split.
        -- cbn [Py.take Py.drop Nat.add]. simpl. now rewrite <- Hs.
        -- intros [|m] Hm; [exact E|]. apply Hbefore. lia.
      * intros [|m]; [exact E|]. apply IH.
Qed.

Section Replace.

Variables (o : ascii) (os new : string).

Local Abbreviation old := (String o os).

Lemma drop_nil (k : nat) : Py.drop k "" = "".
Proof. destruct k; reflexivity. Qed.

Lemma length_drop (k : nat) (s : string) :
  (String.length (Py.drop k s) <= String.length s)%nat.
Proof.
  revert s; induction k as [|k IH]; intros [|c r]; simpl; try lia.
  specialize (IH r). lia.
Qed.

Lemma replace_from_skip (s : string) : forall k,
  Py.replace_from old new k s = Py.replace_from old new 0 (Py.drop k s).
Proof.
  induction s as [|c r IH]; intros [|k]; try reflexivity.
  cbn [Py.drop]. rewrite <- IH. reflexivity.
Qed.

Lemma replace_from_hit (s : string) :
  Py.startswith old s = true ->
  Py.replace_from old new 0 s =
  new ++ Py.replace_from old new 0 (Py.drop (String.length old) s).
Proof.
  destruct s as [|c r]; [discriminate|]. intros H.
  cbn [Py.replace_from]. rewrite H, replace_from_skip. reflexivity.
Qed.

Lemma replace_from_miss (c : ascii) (r : string) :
  Py.startswith old (String c r) = false ->
  Py.replace_from old new 0 (String c r) = String c (Py.replace_from old new 0 r).
Proof. intros H. cbn [Py.replace_from]. now rewrite H. Qed.

Lemma replaced_all_cons (c : ascii) (r r' : string) :
  Py.startswith old (String c r) = false ->
  replaced_all old new r r' ->
  replaced_all old new (String c r) (String c r').
Proof.
  intros H Hr. destruct Hr as [s Hnone|s n rest Hn Hrest].
  - apply replaced_none. cbn [first_occurrence]. now rewrite H, Hnone.
  - change (String c (Py.take n s ++ new ++ rest))
      with (Py.take (S n) (String c s) ++ new ++ rest).
    apply replaced_next.
    + cbn [first_occurrence]. now rewrite H, Hn.
    + exact Hrest.
Qed.

Lemma replace_from_all (n : nat) : forall s,
  (String.length s <= n)%nat ->
  replaced_all old new s (Py.replace_from old new 0 s).
Proof.
  induction n as [|n IH]; intros [|c r] Hlen; simpl in Hlen; try lia;
    try (apply replaced_none; reflexivity).
  destruct (Py.startswith old (String c r)) eqn:E.
  - rewrite (replace_from_hit _ E).
    change (new ++ ?x) with (Py.take 0 (String c r) ++ new ++ x).
    apply replaced_next.
    + cbn [first_occurrence]. now rewrite E.
    + apply IH. cbn [Nat.add String.length Py.drop].
      pose proof (length_drop (String.length os) r). lia.
  - rewrite (replace_from_miss _ _ E). apply replaced_all_cons; [exact E|].
    apply IH. lia.
Qed.

End Replace.

(** For a needle that is not empty, [s.replace(old, new)] replaces every
    occurrence. *)
Lemma replace_all (s old new : string) :
  old <> "" -> replaced_all old new s (Py.replace s old new).
Proof.
  destruct old as [|o os]; [congruence|]. intros _.
  unfold Py.replace. now apply (replace_from_all o os new (String.length s)).
Qed.

Example replace_first_ex :
  replace_first "pt" "model/pt" "tm = moses pt 0 pt" = "tm = moses model/pt 0 pt".
Proof. reflexivity. Qed.

Section RewritingAll.

Context {fs : Type}.
Variable path_exists : fs -> string -> bool.

Local Abbreviation process := (process_line_containing_path path_exists).

(** C2, as the code has it.  The config portion is rewritten by replacing
    every occurrence of the path text, left to right; the replacement is
    [model/{assigned_basename}] in relative mode and the destination path
    of the copy, [{dest_dir}/model/{assigned_basename}], in absolute
    mode; the comment portion, when not empty, follows its marker. *)
Theorem rewritten_line_replaces_every_occurrence disk (line dest_dir : string)
    (symlink absolute : bool) counts line' op counts' :
  process disk line dest_dir symlink absolute counts = (Ok (line', op), counts') ->
  let config := LineParts.config (extract_line_parts line) in
  let comment := LineParts.comment (extract_line_parts line) in
  exists src dest_name updated,
    parse_path config = Ok src /\
    get_unique_dest (OsPath.basename src) counts = (Ok dest_name, counts') /\
    let dest_path := OsPath.join dest_dir ["model"; dest_name] in
    op_call op = recursive_copy (OsPath.normpath src) dest_path symlink /\
    replaced_all src (if absolute then dest_path else "model/" ++ dest_name)
      config updated /\
    line' = updated ++ (if String.eqb comment "" then "" else "#" ++ comment).
Proof.
  intros H. cbv zeta.
  destruct (process_line_inv _ _ _ _ _ _ _ _ _ _ H) as (p & dest_name & Hp & Hex & Hd).
  rewrite (process_line_found _ _ _ _ _ _ _ _ Hp Hex _ _ Hd) in H.
  injection H as Hline Hop. cbv zeta in Hline.
  destruct (get_unique_dest_basename p counts) as (d & Hd' & Hslash).
  rewrite Hd in Hd'. injection Hd' as -> _.
  change (OsPath.join2 "model" d) with (OsPath.join "model" [d]) in Hline.
  rewrite (join_model _ Hslash) in Hline.
  exists p, d. eexists. split; [exact Hp|]. split; [exact Hd|].
  split; [now rewrite <- Hop|]. split.
  - apply replace_all. apply (parse_path_token_of_config _ _ Hp).
  - rewrite <- Hline. destruct (String.eqb _ ""); cbn [negb]; [|reflexivity].
    now rewrite append_nil_r.
Qed.

End RewritingAll.

(** C2, as stated: on a line in which the path text occurs twice, the
    rewritten config portion is not the one with only the first
    occurrence replaced. *)
Lemma rewrite_is_not_first_occurrence_only :
  let line := "tm = moses pt 0 pt" in
  exists line' op counts',
    Sample.process_line [("pt", "PT")] line "/out" false false ∅
      = (Ok (line', op), counts') /\
    parse_path line = Ok "pt" /\
    line' = "tm = moses model/pt 0 model/pt" /\
    line' <> replace_first "pt" "model/pt" line.
Proof.
  cbv zeta. eexists _, _, _. split; [vm_compute; reflexivity|].
  split; [reflexivity|]. split; [reflexivity|]. discriminate.
Qed.

(** ** The theorems at work on the sample world *)

Lemma parse_path_token_witness :
  parse_path "tm = moses -owner pt -maxspan 0 -path phrase-table.packed -max-source-len 5"
    = Ok "phrase-table.packed"
  /\ parse_path "feature-function = LM -lm_order 5 -lm_file lm.kenlm" = Ok "lm.kenlm"
  /\ parse_path "tm = moses pt 0 phrase-table.packed" = Ok "phrase-table.packed".
Proof.
  split; [|split].
  - apply (proj1 (parse_path_token
             "tm = moses -owner pt -maxspan 0 -path phrase-table.packed -max-source-len 5")
             ["tm"; "="; "moses"; "-owner"; "pt"; "-maxspan"; "0"]
             "phrase-table.packed" ["-max-source-len"; "5"]);
      [reflexivity|simpl; intuition discriminate].
  - apply (proj1 (proj2 (parse_path_token
             "feature-function = LM -lm_order 5 -lm_file lm.kenlm"))
             ["feature-function"; "="; "LM"; "-lm_order"; "5"] "lm.kenlm" []);
      [simpl; intuition discriminate|reflexivity|simpl; intuition discriminate].
  - apply (proj1 (proj2 (proj2 (parse_path_token "tm = moses pt 0 phrase-table.packed"))
                    ltac:(simpl; intuition discriminate)
                    ltac:(simpl; intuition discriminate))
             ["tm"; "="; "moses"; "pt"; "0"] "phrase-table.packed").
    reflexivity.
Defined.

Lemma malformed_line_is_fatal_witness :
  line_specifies_path "feature-function = LanguageModel -lm_order 5 -lm_file" = true
  /\ Sample.run sample_argv malformed_disk
     = MkOutcome 2 (logged "list index out of range") [] malformed_disk.
Proof.
  destruct (malformed_line_is_fatal
              Sample.path_exists Sample.open_read Sample.perform Sample.run_shell
              Sample.JOSHUA_PATH
              "feature-function = LanguageModel -lm_order 5 -lm_file"
              ["feature-function"; "="; "LanguageModel"; "-lm_order"; "5"] "-lm_file")
    as (Hline & _ & _ & Hrun & _).
  - reflexivity.
  - simpl; intuition discriminate.
  - right. split; [reflexivity|simpl; intuition discriminate].
  - split; [exact Hline|].
    refine (proj2 (Hrun malformed_disk _ sample_argv ["top-n = 1"] [] ∅ _ _ _ _)).
    + reflexivity.
    + reflexivity.
    + vm_compute. reflexivity.
    + eexists _, _. vm_compute. reflexivity.
Defined.


Lemma default_options_forwarded_witness :
  exists opts,
    Sample.parse sample_disk ["joshua.config"; "/out"] = Some opts /\
    Opts.copy_config_options opts = "-top-n 0 -output-format %S -mark-oovs false" /\
    option_value "-top-n" (Opts.copy_config_options opts) = Some "0".
Proof.
  destruct (default_options_forwarded
              Sample.path_exists Sample.open_read Sample.run_shell Sample.JOSHUA_PATH
              sample_disk "joshua.config" "/out"
              (default "" (Sample.open_read sample_disk "joshua.config")))
    as (opts & Hparse & Hdefault & Htop & _).
  - reflexivity.
  - reflexivity.
  - reflexivity.
  - exists opts. split; [exact Hparse|]. split; [exact Hdefault|exact Htop].
Defined.

Lemma runner_chmod_follows_write_witness :
  exists ops counts earlier,
    Sample.collect sample_disk sample_opts ∅ = (Ok ops, counts) /\
    ops = (earlier ++
           [MkOp (write_string_to_file "/out/joshua" (bundle_runner_text "4g"))
                 ("Writing the bundle runner file " ++ Py.dq ++ "/out/joshua" ++ Py.dq);
            MkOp (chmod "/out/joshua" 365)
                 "Making the bundle runner file executable"])%list.
Proof.
  assert (exists ops counts, Sample.collect sample_disk sample_opts ∅ = (Ok ops, counts))
    as (ops & counts & H) by (eexists _, _; vm_compute; reflexivity).
  unfold Sample.collect in H.
  destruct (runner_chmod_follows_write
              Sample.path_exists Sample.run_shell Sample.JOSHUA_PATH
              sample_disk sample_opts ∅ ops counts H) as ((earlier & Hops) & _).
  exists ops, counts, earlier. split; [exact H|exact Hops].
Defined.

Lemma empty_comment_drops_marker_witness :
  exists line' op counts,
    Sample.process_line sample_disk "tm = moses pt 0 /data/pt  #" "/out" false false ∅
      = (Ok (line', op), counts) /\
    hash_free line' = true.
Proof.
  assert (exists line' op counts,
            Sample.process_line sample_disk "tm = moses pt 0 /data/pt  #" "/out"
              false false ∅ = (Ok (line', op), counts))
    as (line' & op & counts & H) by (eexists _, _, _; vm_compute; reflexivity).
  unfold Sample.process_line in H.
  destruct (empty_comment_drops_marker Sample.path_exists sample_disk _ _ _ _ _ _ _ _ H)
    as (src & dest_name & _ & _ & _ & _ & Hfree & _).
  exists line', op, counts. split; [exact H|].
  apply Hfree; [reflexivity|left; reflexivity].
Defined.

Lemma rewritten_line_replaces_every_occurrence_witness :
  exists line' op counts src dest_name updated,
    Sample.process_line [("pt", "PT")] "tm = moses pt 0 pt # pt" "/out" false false ∅
      = (Ok (line', op), counts) /\
    replaced_all src ("model/" ++ dest_name) "tm = moses pt 0 pt " updated /\
    line' = updated ++ "# pt".
Proof.
  assert (exists line' op counts,
            Sample.process_line [("pt", "PT")] "tm = moses pt 0 pt # pt" "/out"
              false false ∅ = (Ok (line', op), counts))
    as (line' & op & counts & H) by (eexists _, _, _; vm_compute; reflexivity).
  unfold Sample.process_line in H.
  destruct (rewritten_line_replaces_every_occurrence
              Sample.path_exists [("pt", "PT")] _ _ _ _ _ _ _ _ H)
    as (src & dest_name & updated & _ & _ & _ & Hall & Hline).
  exists line', op, counts, src, dest_name, updated.
  split; [exact H|]. split; [exact Hall|exact Hline].
Defined.

(** The collision of C1 in a plan: two copies with one destination. *)
Example collision_in_plan :
  let disk : Sample.disk :=
    [("/a/lm.2.kenlm", "A"); ("/b/lm.kenlm", "B"); ("/c/lm.kenlm", "C")] in
  exists ops ls counts,
    Sample.plan disk sample_opts 0
      ["lm = kenlm 5 /a/lm.2.kenlm"; "lm = kenlm 5 /b/lm.kenlm"; "lm = kenlm 5 /c/lm.kenlm"]
      [] [] ∅ = (Ok (ops, ls), counts) /\
    map op_call ops =
      [recursive_copy "/a/lm.2.kenlm" "/out/model/lm.2.kenlm" false;
       recursive_copy "/b/lm.kenlm" "/out/model/lm.kenlm" false;
       recursive_copy "/c/lm.kenlm" "/out/model/lm.2.kenlm" false].
Proof. cbv zeta. eexists _, _, _. split; [vm_compute; reflexivity|reflexivity]. Qed.

(** * Further properties of the planner and the executor *)

Section PlanShape.

Context {fs : Type}.
Variable path_exists : fs -> string -> bool.
Variable run_shell : string -> string -> Z * string.
Variable JOSHUA_PATH : string.

Local Abbreviation process := (process_line_containing_path path_exists).
Local Abbreviation plan := (plan_lines path_exists).
Local Abbreviation collect := (collect_operations path_exists run_shell JOSHUA_PATH).
Local Abbreviation lines_of := (input_lines run_shell JOSHUA_PATH).
Local Abbreviation clear := (destination_clear path_exists).
Local Abbreviation copy_of := (planned_copy path_exists).

Lemma process_line_copy disk line (opts : Opts.t) counts line' op counts' :
  process disk line (Opts.dest_dir opts) (Opts.symlink opts) (Opts.absolute opts) counts
    = (Ok (line', op), counts') ->
  copy_of disk opts op.
Proof.
  intros H.
  destruct (process_line_inv _ _ _ _ _ _ _ _ _ _ H) as (p & dest_name & Hp & Hex & Hd).
  rewrite (process_line_found _ _ _ _ _ _ _ _ Hp Hex _ _ Hd) in H.
  injection H as _ Hop.
  destruct (get_unique_dest_basename p counts) as (d & Hd' & Hslash).
  rewrite Hd in Hd'. injection Hd' as -> _.
  exists (OsPath.normpath p), d. rewrite <- Hop. repeat split; assumption.
Qed.

(** What a run of the loop that ends well has produced. *)
Lemma plan_lines_shape disk opts lines : forall i counts ops ls counts',
  plan disk opts i lines [] [] counts = (Ok (ops, ls), counts') ->
  List.length ls = List.length lines /\
  List.length ops = List.length (path_bearing lines) /\
  Forall (copy_of disk opts) ops /\
  (forall k line,
     nth_error lines k = Some line -> line_specifies_path line = false ->
     nth_error ls k = Some line).
Proof.
  induction lines as [|line rest IH]; intros i counts ops ls counts' H.
  - cbn in H. injection H as <- <- _. repeat split; try constructor.
    intros [|k] line H; discriminate H.
  - unfold path_bearing. cbn [List.filter]. destruct (line_specifies_path line) eqn:Hl.
    + destruct (process disk line (Opts.dest_dir opts) (Opts.symlink opts)
                  (Opts.absolute opts) counts) as [[[line' op]|e] c] eqn:E.
      2:{ rewrite (plan_lines_raise _ _ _ _ _ _ _ _ _ _ _ Hl E) in H. discriminate. }
      rewrite (plan_lines_step _ _ _ _ _ _ _ _ _ _ _ _ Hl E), plan_lines_acc in H.
      destruct (plan disk opts (S i) rest [] [] c) as [[[dops dls]|e] c'] eqn:Erest;
        [|discriminate].
      injection H as <- <- _. destruct (IH _ _ _ _ _ Erest) as (Hls & Hops & Hall & Hkeep).
      cbn [app List.length]. repeat split.
      * now rewrite Hls.
      * now rewrite Hops.
      * constructor; [exact (process_line_copy _ _ _ _ _ _ _ E)|exact Hall].
      * intros [|k] x Hx Hxl; cbn [nth_error] in *; [congruence|]. now apply Hkeep.
    + rewrite (plan_lines_skip _ _ _ _ _ _ _ _ _ Hl), plan_lines_acc in H.
      destruct (plan disk opts (S i) rest [] [] counts) as [[[dops dls]|e] c'] eqn:Erest;
        [|discriminate].
      injection H as <- <- _. destruct (IH _ _ _ _ _ Erest) as (Hls & Hops & Hall & Hkeep).
      cbn [app List.length]. repeat split.
      * now rewrite Hls.
      * exact Hops.
      * exact Hall.
      * intros [|k] x Hx Hxl; cbn [nth_error] in *; [exact Hx|]. now apply Hkeep.
Qed.

(** A plan that ends well, taken apart. *)
Lemma collect_shape disk opts counts ops counts' :
  collect disk opts counts = (Ok ops, counts') ->
  exists lines copies ls,
    clear disk opts = true /\
    lines_of opts = Ok lines /\
    plan disk opts 0 lines [] [] counts = (Ok (copies, ls), counts') /\
    ops = (first_operations path_exists disk opts ++ copies
             ++ last_operations opts ls)%list.
Proof.
  intros H.
  pose proof (collect_ok_clear _ _ _ _ _ _ _ _ H) as Hclear.
  rewrite (collect_plan _ _ _ _ _ _ Hclear) in H.
  destruct (lines_of opts) as [lines|e]; [|discriminate].
  rewrite plan_lines_acc in H.
  destruct (plan disk opts 0 lines [] [] counts) as [[[copies ls]|e] c] eqn:E;
    [|discriminate].
  injection H as <- <-. exists lines, copies, ls.
  split; [exact Hclear|]. split; [reflexivity|]. split; [exact E|].
  cbn [fold_left add_runner app]. unfold last_operations.
  now rewrite <- !app_assoc.
Qed.

Lemma first_operations_no_copy disk opts op src dest s :
  In op (first_operations path_exists disk opts) ->
  op_call op = recursive_copy src dest s -> False.
Proof.
  unfold first_operations. intros Hin Hop.
  destruct (path_exists disk (Opts.dest_dir opts)); cbn [app] in Hin;
    repeat (destruct Hin as [<-|Hin]; [discriminate Hop|]); destruct Hin.
Qed.

Lemma last_operations_no_copy opts ls op src dest s :
  In op (last_operations opts ls) ->
  op_call op = recursive_copy src dest s -> False.
Proof.
  unfold last_operations. intros Hin Hop.
  repeat (destruct Hin as [<-|Hin]; [discriminate Hop|]); destruct Hin.
Qed.

(** X1. A plan that ends well is, in this order: the removal of an
    existing destination (queued only under [--force]), the creation of
    [{dest_dir}/model], one copy per path-bearing line, the write of
    [joshua.config], the write of the launcher and its chmod. *)
Theorem plan_operations_in_order disk (opts : Opts.t) counts ops counts' :
  collect disk opts counts = (Ok ops, counts') ->
  exists lines copies ls,
    lines_of opts = Ok lines /\
    ops = (first_operations path_exists disk opts ++ copies
             ++ last_operations opts ls)%list /\
    List.length copies = List.length (path_bearing lines) /\
    Forall (fun op => exists src dest s, op_call op = recursive_copy src dest s) copies /\
    (path_exists disk (Opts.dest_dir opts) = true -> Opts.force opts = true).
Proof.
  intros H. destruct (collect_shape _ _ _ _ _ H) as (lines & copies & ls & Hc & Hl & Hp & ->).
  destruct (plan_lines_shape _ _ _ _ _ _ _ _ Hp) as (_ & Hn & Hall & _).
  exists lines, copies, ls. split; [exact Hl|]. split; [reflexivity|].
  split; [exact Hn|]. split.
  - eapply Forall_impl; [exact Hall|]. intros op (src & name & Hop & _). eauto.
  - intros Hex. unfold destination_clear in Hc. now rewrite Hex in Hc.
Qed.

(** X2. Every copy of a plan that ends well takes a source that exists on
    disk, puts it directly under [{dest_dir}/model] under a name without
    separator, and links or copies as [--symlink] says. *)
Theorem planned_copies_stay_in_model disk (opts : Opts.t) counts ops counts' :
  collect disk opts counts = (Ok ops, counts') ->
  forall op src dest s,
    In op ops -> op_call op = recursive_copy src dest s ->
    s = Opts.symlink opts /\
    path_exists disk src = true /\
    exists name,
      slash_free name = true /\
      dest = OsPath.join (Opts.dest_dir opts) ["model"; name].
Proof.
  intros H op src dest s Hin Hop.
  destruct (collect_shape _ _ _ _ _ H) as (lines & copies & ls & _ & _ & Hp & ->).
  destruct (plan_lines_shape _ _ _ _ _ _ _ _ Hp) as (_ & _ & Hall & _).
  apply in_app_or in Hin as [Hin|Hin];
    [destruct (first_operations_no_copy _ _ _ _ _ _ Hin Hop)|].
  apply in_app_or in Hin as [Hin|Hin];
    [|destruct (last_operations_no_copy _ _ _ _ _ _ Hin Hop)].
  rewrite Forall_forall in Hall.
  destruct (Hall op (proj2 (list_elem_of_In _ _) Hin)) as (src' & name & Hop' & Hex & Hname).
  rewrite Hop in Hop'. injection Hop' as -> -> ->. eauto.
Qed.

(** X3. The configuration a plan writes has one line per line read, and
    every line that is not path-bearing is written as it was read. *)
Theorem rewritten_config_keeps_lines disk (opts : Opts.t) counts ops counts' :
  collect disk opts counts = (Ok ops, counts') ->
  exists lines ls,
    lines_of opts = Ok lines /\
    In (write_string_to_file
          (OsPath.join (Opts.dest_dir opts) [OUTPUT_CONFIG_FILE_NAME])
          (Py.join Py.nl ls ++ Py.nl))
       (map op_call ops) /\
    List.length ls = List.length lines /\
    (forall k line,
       nth_error lines k = Some line -> line_specifies_path line = false ->
       nth_error ls k = Some line).
Proof.
  intros H. destruct (collect_shape _ _ _ _ _ H) as (lines & copies & ls & _ & Hl & Hp & ->).
  destruct (plan_lines_shape _ _ _ _ _ _ _ _ Hp) as (Hn & _ & _ & Hkeep).
  exists lines, ls. split; [exact Hl|]. split; [|split; [exact Hn|exact Hkeep]].
  rewrite !map_app. apply in_or_app. right. apply in_or_app. right. now left.
Qed.

Lemma split_on_fields (c : ascii) (s : string) : Py.split_on c s <> [].
Proof.
  destruct s as [|x r]; cbn [Py.split_on]; [discriminate|].
  destruct (Py.split_on c r); [discriminate|]. destruct (Ascii.eqb x c); discriminate.
Qed.

(** Splitting at a character and joining with it gives the text back. *)
Lemma join_split_on (c : ascii) (s : string) :
  Py.join (String c "") (Py.split_on c s) = s.
Proof.
  induction s as [|x r IH]; [reflexivity|].
  cbn [Py.split_on]. pose proof (split_on_fields c r) as Hne.
  destruct (Py.split_on c r) as [|f fl]; [congruence|].
  destruct (Ascii.eqb_spec x c) as [->|_].
  - change (Py.join (String c "") ("" :: f :: fl))
      with ("" ++ String c "" ++ Py.join (String c "") (f :: fl)).
    now rewrite IH.
  - destruct fl as [|g fl].
    + cbn in IH |- *. now rewrite IH.
    + change (Py.join (String c "") (String x f :: g :: fl))
        with (String x (f ++ String c "" ++ Py.join (String c "") (g :: fl))).
      change (Py.join (String c "") (f :: g :: fl))
        with (f ++ String c "" ++ Py.join (String c "") (g :: fl)) in IH.
      now rewrite IH.
Qed.

Lemma plan_lines_plain disk opts lines : forall i ops ls counts,
  path_bearing lines = [] ->
  plan disk opts i lines ops ls counts = (Ok (ops, (ls ++ lines)%list), counts).
Proof.
  induction lines as [|line rest IH]; intros i ops ls counts H.
  - cbn. now rewrite app_nil_r.
  - unfold path_bearing in H. cbn [List.filter] in H.
    destruct (line_specifies_path line) eqn:Hl; [discriminate|].
    rewrite (plan_lines_skip _ _ _ _ _ _ _ _ _ Hl), (IH _ _ _ _ H).
    now rewrite <- app_assoc.
Qed.

(** X4. A configuration without path-bearing lines, planned without
    options for the external program, is written back as it was read,
    with one line feed added at its end; nothing is copied and the name
    registry stays as it was. *)
Theorem plain_config_round_trip disk (opts : Opts.t) counts :
  clear disk opts = true ->
  Opts.copy_config_options opts = "" ->
  path_bearing (Py.split_on (ascii_of_nat 10) (Opts.config_text opts)) = [] ->
  exists ls,
    collect disk opts counts =
      (Ok (first_operations path_exists disk opts ++ last_operations opts ls)%list,
       counts) /\
    Py.join Py.nl ls = Opts.config_text opts.
Proof.
  intros Hclear Hopt Hplain.
  exists (Py.split_on (ascii_of_nat 10) (Opts.config_text opts)).
  split; [|apply join_split_on].
  rewrite (collect_plan _ _ _ _ _ _ Hclear). unfold input_lines. rewrite Hopt.
  cbn [String.eqb negb]. rewrite (plan_lines_plain _ _ _ _ _ _ _ Hplain).
  cbn [fold_left add_runner app]. unfold last_operations.
  now rewrite <- !app_assoc.
Qed.

End PlanShape.

(** ** Runs that end before or during execution *)

Section Runs2.

Context {fs : Type}.
Variable path_exists : fs -> string -> bool.
Variable open_read : fs -> string -> option string.
Variable perform : call -> fs -> result () * fs.
Variable run_shell : string -> string -> Z * string.
Variable JOSHUA_PATH : string.

Local Abbreviation collect := (collect_operations path_exists run_shell JOSHUA_PATH).
Local Abbreviation parse := (handle_args open_read JOSHUA_PATH).
Local Abbreviation execute := (execute_operations perform).
Local Abbreviation run := (main path_exists open_read perform run_shell JOSHUA_PATH).
Local Abbreviation lines_of := (input_lines run_shell JOSHUA_PATH).
Local Abbreviation clear := (destination_clear path_exists).

(** X5. When the destination exists and [--force] is not given, the run
    ends with status 2 and the message that names the destination; the
    configuration is not looked at, nothing is executed and the file
    system is as it was. *)
Theorem existing_destination_stops_run argv disk (opts : Opts.t) :
  parse disk (tl argv) = Some opts ->
  path_exists disk (Opts.dest_dir opts) = true ->
  Opts.force opts = false ->
  run argv disk =
    MkOutcome 2
      (logged ("ERROR: The destination directory exists: " ++ Py.dq
                 ++ Opts.dest_dir opts ++ Py.dq ++ Py.nl
                 ++ "Use -f or --force option to overwrite the directory."))
      [] disk.
Proof.
  intros Hargs Hex Hforce. unfold main. rewrite Hargs.
  unfold collect_operations, mbind, planner_bind, bind, lift.
  rewrite Hex, Hforce. reflexivity.
Qed.

(** X6. When the external program returns a non-zero code, the run ends
    with status 2 and an error logged; nothing is executed and the file
    system is as it was. *)
Theorem failed_filter_stops_run argv disk (opts : Opts.t) :
  parse disk (tl argv) = Some opts ->
  Opts.copy_config_options opts <> "" ->
  fst (run_shell (OsPath.join JOSHUA_PATH ["scripts/copy-config.pl"] ++ " "
                    ++ Opts.copy_config_options opts)
         (Opts.config_text opts)) <> 0 ->
  exit_status (run argv disk) = 2 /\
  (exists m, error (run argv disk) = logged m) /\
  executed (run argv disk) = [] /\
  final (run argv disk) = disk.
Proof.
  intros Hargs Hopt Hcode.
  assert (exists e c, collect disk opts ∅ = (Raise e, c)) as (e & c & Hc).
  { destruct (clear disk opts) eqn:Hclear.
    - rewrite (collect_plan _ _ _ _ _ _ Hclear). unfold input_lines.
      apply String.eqb_neq in Hopt. rewrite Hopt. cbn [negb].
      unfold filter_through_copy_config_script.
      destruct (run_shell _ _) as [returncode out]. cbn [fst] in Hcode.
      apply Z.eqb_neq in Hcode. rewrite Hcode. cbn [negb]. eauto.
    - destruct (collect_blocked _ run_shell JOSHUA_PATH _ _ ∅ Hclear) as (e & -> & _). eauto. }
  rewrite (main_plan_failed _ _ _ _ _ _ _ _ _ _ Hargs Hc). cbn. eauto.
Qed.

(** *** The executor *)

Lemma execute_app (a b : list operation) : forall disk,
  execute (a ++ b) disk =
  match execute a disk with
  | (Ok _, disk', started) =>
      let '(r, disk'', started') := execute b disk' in
      (r, disk'', (started ++ started')%list)
  | (Raise e, disk', started) => (Raise e, disk', started)
  end.
Proof.
  induction a as [|op a IH]; intros disk.
  - cbn. now destruct (execute b disk) as [[r d] s].
  - cbn [app execute_operations].
    destruct (perform (op_call op) disk) as [[[]|e] d]; [|reflexivity].
    rewrite IH. destruct (execute a d) as [[[[]|e] d'] s]; [|reflexivity].
    now destruct (execute b d') as [[r d''] s'].
Qed.


(** X7. Operations are executed in the order queued, up to the first one
    that fails: that one is the last started, the operations after it are
    never started, and the file system stays as the failed call left it. *)
Theorem execute_stops_at_first_failure (done rest : list operation) (op : operation)
    disk disk1 disk2 e :
  execute done disk = (Ok (), disk1, done) ->
  perform (op_call op) disk1 = (Raise e, disk2) ->
  execute (done ++ op :: rest) disk = (Raise e, disk2, (done ++ [op])%list).
Proof.
  intros Hdone Hop. rewrite execute_app, Hdone.
  cbn [execute_operations]. now rewrite Hop.
Qed.

(** X8. A run whose plan ends well and whose execution fails exits with
    status 2 and logs the message of the failure; what was executed stays
    executed: there is no rollback. *)
Theorem failed_operation_leaves_partial_bundle argv disk (opts : Opts.t)
    (done rest : list operation) (op : operation) counts disk1 disk2 e :
  parse disk (tl argv) = Some opts ->
  collect disk opts ∅ = (Ok (done ++ op :: rest)%list, counts) ->
  execute done disk = (Ok (), disk1, done) ->
  perform (op_call op) disk1 = (Raise e, disk2) ->
  run argv disk = MkOutcome 2 (logged (message e)) (done ++ [op])%list disk2.
Proof.
  intros Hargs Hplan Hdone Hop. unfold main. rewrite Hargs, Hplan.
  rewrite execute_app, Hdone. cbn [execute_operations]. now rewrite Hop.
Qed.


End Runs2.

(** X10. Without options for the external program the program is not
    run: the plan does not depend on what a shell command would return,
    nor on where Joshua is installed. *)
Theorem no_options_no_filter {fs : Type} (path_exists : fs -> string -> bool)
    (run_shell1 run_shell2 : string -> string -> Z * string)
    (JOSHUA_PATH1 JOSHUA_PATH2 : string) disk (opts : Opts.t) counts :
  Opts.copy_config_options opts = "" ->
  collect_operations path_exists run_shell1 JOSHUA_PATH1 disk opts counts =
  collect_operations path_exists run_shell2 JOSHUA_PATH2 disk opts counts.
Proof.
  intros H. unfold collect_operations. rewrite H. reflexivity.
Qed.

(** ** More on the destination namer *)

Lemma length_append (a b : string) :
  String.length (a ++ b) = (String.length a + String.length b)%nat.
Proof. induction a as [|c r IH]; simpl; [reflexivity|now rewrite IH]. Qed.

Lemma append_inv_head (a b c : string) : a ++ b = a ++ c -> b = c.
Proof. induction a as [|x r IH]; simpl; [tauto|]. intros [= H]. now apply IH. Qed.

Lemma append_inv_tail (a b c : string) : a ++ c = b ++ c -> a = b.
Proof.
  revert b; induction a as [|x a IH]; intros [|y b] H.
  - reflexivity.
  - apply (f_equal String.length) in H. rewrite !length_append in H. simpl in H. lia.
  - apply (f_equal String.length) in H. rewrite !length_append in H. simpl in H. lia.
  - simpl in H. injection H as -> H. f_equal. now apply IH.
Qed.

Lemma str_of_nat_inj (a b : nat) : Py.str_of_nat a = Py.str_of_nat b -> a = b.
Proof.
  unfold Py.str_of_nat. intros H. apply Unsigned.to_uint_inj.
  apply (f_equal NilEmpty.uint_of_string) in H. rewrite !NilEmpty.usu in H. now injection H.
Qed.

(** Requests for one name that differ in the number of earlier requests
    are answered differently. *)
Lemma answer_inj (name : string) (a b : nat) : answer name a = answer name b -> a = b.
Proof.
  assert (Hfirst : forall k, name <> answer name (S k)).
  { intros k H. unfold answer in H. rewrite <- (splitext_app name) in H at 1.
    apply append_inv_head in H. apply (f_equal String.length) in H.
    rewrite !length_append in H. simpl in H. lia. }
  destruct a as [|a], b as [|b]; intros H.
  - reflexivity.
  - destruct (Hfirst _ H).
  - destruct (Hfirst _ (eq_sym H)).
  - unfold answer in H. apply append_inv_head, append_inv_head, append_inv_tail in H.
    apply str_of_nat_inj in H. lia.
Qed.

Lemma occurrences_app (name : string) (a b : list string) :
  occurrences name (a ++ b) = (occurrences name a + occurrences name b)%nat.
Proof. unfold occurrences. now rewrite List.filter_app, length_app. Qed.

Lemma assign_all_answer (pre post : list string) (name : string) :
  exists dests counts,
    assign_all (pre ++ name :: post) ∅ = (Ok dests, counts) /\
    dests !! List.length pre = Some (answer name (occurrences name pre)).
Proof.
  destruct (assign_all_at pre post name ∅) as (ds & c & H & Hds).
  exists ds, c. split; [exact H|]. rewrite Hds, lookup_empty. reflexivity.
Qed.

(** X11. Two requests for the same name within one run never get the same
    destination. *)
Theorem same_name_distinct_destinations (pre mid post : list string) (name : string) :
  exists dests counts d1 d2,
    assign_all (pre ++ name :: mid ++ name :: post) ∅ = (Ok dests, counts) /\
    dests !! List.length pre = Some d1 /\
    dests !! (List.length pre + S (List.length mid))%nat = Some d2 /\
    d1 <> d2.
Proof.
  destruct (assign_all_answer pre (mid ++ name :: post) name) as (ds & c & H & H1).
  destruct (assign_all_answer (pre ++ name :: mid) post name) as (ds' & c' & H' & H2).
  rewrite <- app_assoc in H'. cbn [app] in H'. rewrite H in H'. injection H' as <- <-.
  rewrite length_app in H2. cbn [List.length] in H2.
  eexists ds, c, _, _. split; [exact H|]. split; [exact H1|]. split; [exact H2|].
  intros E. apply answer_inj in E. rewrite occurrences_app, occurrences_cons in E.
  rewrite String.eqb_refl in E. lia.
Qed.

(** After the requests [names], the registry holds for every name the
    number of requests for it, on top of what it held. *)
Lemma assign_all_counts (names : list string) : forall counts,
  exists dests counts',
    assign_all names counts = (Ok dests, counts') /\
    List.length dests = List.length names /\
    forall name,
      counts' !! name =
        match occurrences name names with
        | O => counts !! name
        | S k => Some (default 0%nat (counts !! name) + S k)%nat
        end.
Proof.
  induction names as [|x names IH]; intros counts.
  - exists [], counts. repeat split.
  - cbn [assign_all]. unfold mbind, planner_bind, bind.
    rewrite get_unique_dest_step.
    destruct (IH (<[x := S (default 0%nat (counts !! x))]> counts))
      as (ds & c & -> & Hlen & Hc).
    eexists _, _. split; [reflexivity|]. split; [cbn; now rewrite Hlen|].
    intros name. rewrite Hc, occurrences_cons.
    destruct (String.eqb_spec name x) as [->|Hne].
    + rewrite lookup_insert_eq. cbn [default Nat.add].
      destruct (occurrences x names) as [|n]; cbn [default]; f_equal; unfold id.
      * now rewrite Nat.add_1_r.
      * now rewrite (Nat.add_succ_r _ (S n)).
    + rewrite lookup_insert_ne by congruence. reflexivity.
Qed.

(** X12. The registry of a run maps every name requested to the number of
    requests for it, holds nothing for a name never requested, and every
    request is answered. *)
Theorem registry_counts_requests (names : list string) :
  exists dests counts,
    assign_all names ∅ = (Ok dests, counts) /\
    List.length dests = List.length names /\
    forall name,
      counts !! name =
        if Nat.eqb (occurrences name names) 0 then None
        else Some (occurrences name names).
Proof.
  destruct (assign_all_counts names ∅) as (ds & c & H & Hlen & Hc).
  exists ds, c. split; [exact H|]. split; [exact Hlen|].
  intros name. rewrite Hc, lookup_empty.
  destruct (occurrences name names); reflexivity.
Qed.

(** *** The extension of a generated name *)

Lemma rfind_none (c : ascii) (s : string) :
  Py.all_chars (fun x => negb (Ascii.eqb x c)) s = true -> Py.rfind c s = -1.
Proof.
  induction s as [|a r IH]; simpl; [reflexivity|].
  intros H. apply andb_true_iff in H as [Ha Hr]. rewrite (IH Hr).
  apply negb_true_iff in Ha. now rewrite Ha.
Qed.

Lemma rfind_app_last (c : ascii) (x e : string) :
  Py.all_chars (fun a => negb (Ascii.eqb a c)) e = true ->
  Py.rfind c (x ++ String c e) = Z.of_nat (String.length x).
Proof.
  intros He. induction x as [|a x IH].
  - simpl. rewrite (rfind_none _ _ He), Ascii.eqb_refl. reflexivity.
  - cbn [String.append Py.rfind String.length]. rewrite IH.
    destruct (Z.leb_spec 0 (Z.of_nat (String.length x))); lia.
Qed.

Lemma take_app (x y : string) : Py.take (String.length x) (x ++ y) = x.
Proof. induction x as [|a x IH]; simpl; [now destruct y|now rewrite IH]. Qed.

Lemma drop_app (x y : string) : Py.drop (String.length x) (x ++ y) = y.
Proof. induction x as [|a x IH]; simpl; [reflexivity|exact IH]. Qed.

Lemma drop_succ (n : nat) : forall (s : string) (c : ascii) (r : string),
  Py.drop n s = String c r -> Py.drop (S n) s = r.
Proof.
  induction n as [|n IH]; intros [|a s] c r H; simpl in H; try discriminate.
  - now injection H as _ ->.
  - exact (IH _ _ _ H).
Qed.

Lemma all_dots_app (a b : string) :
  OsPath.all_dots (a ++ b) = OsPath.all_dots a && OsPath.all_dots b.
Proof.
  induction a as [|c r IH]; simpl; [reflexivity|]. now rewrite IH, andb_assoc.
Qed.

(** A decimal numeral starts with a digit. *)
Lemma all_dots_str_of_nat (n : nat) : OsPath.all_dots (Py.str_of_nat n) = false.
Proof.
  unfold Py.str_of_nat. rewrite <- (Unsigned.of_to n), Unsigned.to_of.
  unfold Decimal.unorm. destruct (Decimal.nzhead (Nat.to_uint n)); reflexivity.
Qed.

(** An extension that is not empty is a dot and a text without dots. *)
Lemma splitext_ext_shape (p : string) :
  snd (OsPath.splitext p) <> "" ->
  exists e,
    snd (OsPath.splitext p) = String "." e /\
    Py.all_chars (fun a => negb (Ascii.eqb a ".")) e = true.
Proof.
  unfold OsPath.splitext.
  destruct (Py.rfind "/" p <? Py.rfind "." p) eqn:E; [|now intros []].
  destruct (OsPath.all_dots _); [now intros []|]. cbn [snd]. intros _.
  apply Z.ltb_lt in E. pose proof (rfind_lower "/" p).
  destruct (rfind_found "." p) as [r Hr]; [lia|]. exists r. split; [exact Hr|].
  pose proof (rfind_tail "." p) as Ht.
  replace (Z.to_nat (Py.rfind "." p + 1)) with (S (Z.to_nat (Py.rfind "." p))) in Ht by lia.
  now rewrite (drop_succ _ _ _ _ Hr) in Ht.
Qed.

Lemma splitext_answer (name : string) (n : nat) :
  slash_free name = true ->
  snd (OsPath.splitext name) <> "" ->
  OsPath.splitext (fst (OsPath.splitext name) ++ "." ++ Py.str_of_nat n
                     ++ snd (OsPath.splitext name))
  = (fst (OsPath.splitext name) ++ "." ++ Py.str_of_nat n, snd (OsPath.splitext name)).
Proof.
  intros Hname Hext. destruct (splitext_ext_shape name Hext) as (e & He & Hdots).
  destruct (splitext_chars _ name Hname) as [Hstem Hextfree].
  set (stem := fst (OsPath.splitext name)) in *. rewrite He in *.
  set (x := stem ++ "." ++ Py.str_of_nat n).
  replace (stem ++ "." ++ Py.str_of_nat n ++ String "." e) with (x ++ String "." e)
    by (unfold x; now rewrite !append_assoc).
  assert (Hslash : Py.rfind "/" (x ++ String "." e) = -1).
  { assert (Hnum : Py.all_chars (fun c => negb (Ascii.eqb c "/")) (Py.str_of_nat n) = true).
    { apply str_of_nat_chars.
      intros c Hc. simpl in Hc.
      repeat (destruct Hc as [<-|Hc]; [reflexivity|]). destruct Hc. }
    apply rfind_none. unfold x. now rewrite !all_chars_app, Hstem, Hextfree, Hnum. }
  unfold OsPath.splitext. rewrite Hslash, (rfind_app_last _ _ _ Hdots).
  destruct (Z.ltb_spec (-1) (Z.of_nat (String.length x))) as [_|H]; [|lia].
  rewrite Nat2Z.id. change (Z.to_nat (-1 + 1)) with 0%nat. rewrite Nat.sub_0_r.
  cbn [Py.drop]. rewrite take_app, drop_app.
  unfold x at 1. rewrite !all_dots_app, all_dots_str_of_nat, !andb_false_r. reflexivity.
Qed.

(** X13. A basename with an extension keeps it under every answer of the
    namer: the number goes in front of the extension. *)
Theorem generated_name_keeps_extension (name : string) (counts : gmap string nat)
    (dest : string) (counts' : gmap string nat) :
  slash_free name = true ->
  snd (OsPath.splitext name) <> "" ->
  get_unique_dest name counts = (Ok dest, counts') ->
  snd (OsPath.splitext dest) = snd (OsPath.splitext name) /\
  (dest = name \/
   exists n, (2 <= n)%nat /\
     fst (OsPath.splitext dest) = fst (OsPath.splitext name) ++ "." ++ Py.str_of_nat n).
Proof.
  intros Hname Hext H. rewrite get_unique_dest_step in H. injection H as <- _.
  destruct (default 0%nat (counts !! name)) as [|k]; [split; [reflexivity|now left]|].
  pose proof (splitext_answer name (S (S k)) Hname Hext) as Hs.
  split; [exact (f_equal snd Hs)|].
  right. exists (S (S k)). split; [lia|exact (f_equal fst Hs)].
Qed.

(** ** More on the path extractor *)

Lemma split_run_blank_free (s : string) :
  blank_free (fst (Py.split_run s)) = true /\
  Forall (fun w => blank_free w = true) (snd (Py.split_run s)).
Proof.
  unfold blank_free. induction s as [|c r IH]; simpl; [split; [reflexivity|constructor]|].
  destruct IH as [Hw Hws]. destruct (Py.split_run r) as [w ws]; simpl in *.
  destruct (Py.isspace c) eqn:Ec; simpl.
  - split; [reflexivity|]. unfold Py.cons_word.
    destruct (String.eqb w ""); [exact Hws|]. now constructor.
  - split; [now rewrite Ec, Hw|exact Hws].
Qed.

Lemma split_blank_free (s t : string) : In t (Py.split s) -> blank_free t = true.
Proof.
  intros Hin. unfold Py.split in Hin.
  destruct (split_run_blank_free s) as [Hw Hws].
  destruct (Py.split_run s) as [w ws]; simpl in *.
  unfold Py.cons_word in Hin. rewrite Forall_forall in Hws.
  destruct (String.eqb w "").
  - apply Hws, list_elem_of_In, Hin.
  - destruct Hin as [<-|Hin]; [exact Hw|]. apply Hws, list_elem_of_In, Hin.
Qed.

(** X14. The path extracted from a line is one of the whitespace tokens of
    its config portion: it is not empty and holds neither a blank nor a
    comment marker. *)
Theorem extracted_path_is_a_token (line p : string) :
  parse_path (LineParts.config (extract_line_parts line)) = Ok p ->
  In p (Py.split (LineParts.config (extract_line_parts line))) /\
  p <> "" /\ blank_free p = true /\ hash_free p = true.
Proof.
  intros H. pose proof H as Hin. unfold parse_path in Hin. apply getitem_In in Hin.
  destruct (extract_line_parts_spec line) as [Hfree _].
  destruct (split_chars _ _ _ Hfree Hin) as [Hne Hhash].
  split; [exact Hin|]. split; [exact Hne|]. split; [exact (split_blank_free _ _ Hin)|exact Hhash].
Qed.

Lemma in_split_first (x : string) (l : list string) :
  In x l -> exists pre post, l = (pre ++ x :: post)%list /\ ~ In x pre.
Proof.
  induction l as [|y l IH]; intros Hin; [destruct Hin|].
  destruct (String.eqb_spec y x) as [->|Hne].
  - exists [], l. split; [reflexivity|intros []].
  - destruct Hin as [Hin|Hin]; [congruence|].
    destruct (IH Hin) as (pre & post & -> & Hpre).
    exists (y :: pre), post. split; [reflexivity|]. intros [H|H]; [congruence|tauto].
Qed.

Lemma parse_path_raise (config_line : string) (e : exn) :
  parse_path config_line = Raise e -> e = MkExn IndexError "list index out of range".
Proof.
  unfold parse_path, Py.getitem. destruct (_ || _); [now intros [= <-]|].
  destruct (nth_error _ _); [discriminate|now intros [= <-]].
Qed.

(** X15. On a path-bearing line the extraction fails in one case only:
    the flag that decides the path is the last token of the config
    portion; the failure is an [IndexError]. *)
Theorem extraction_fails_only_after_flag (line : string) (e : exn) :
  let tokens := Py.split (LineParts.config (extract_line_parts line)) in
  line_specifies_path line = true ->
  parse_path (LineParts.config (extract_line_parts line)) = Raise e ->
  e = MkExn IndexError "list index out of range" /\
  exists pre flag,
    tokens = (pre ++ [flag])%list /\
    ~ In "-path" pre /\
    (flag = "-path" \/ (flag = "-lm_file" /\ ~ In "-lm_file" pre)).
Proof.
  cbv zeta. intros Hline H. split; [exact (parse_path_raise _ _ H)|].
  unfold parse_path in H.
  destruct (in_dec string_dec "-path"
              (Py.split (LineParts.config (extract_line_parts line)))) as [Hp|Hp].
  - destruct (in_split_first _ _ Hp) as (pre & post & E & Hpre).
    rewrite E in H |- *. rewrite (path_index_path _ _ Hpre) in H.
    destruct post as [|t post]; [|rewrite getitem_after in H; discriminate].
    exists pre, "-path". split; [reflexivity|]. split; [exact Hpre|now left].
  - destruct (in_dec string_dec "-lm_file"
                (Py.split (LineParts.config (extract_line_parts line)))) as [Hl|Hl].
    + destruct (in_split_first _ _ Hl) as (pre & post & E & Hpre).
      rewrite E in H, Hp |- *. rewrite (path_index_lm_file _ _ Hp Hpre) in H.
      destruct post as [|t post]; [|rewrite getitem_after in H; discriminate].
      exists pre, "-lm_file". split; [reflexivity|]. split.
      * intros Hin. apply Hp, in_or_app. now left.
      * right. split; [reflexivity|exact Hpre].
    + rewrite (path_index_none _ Hp Hl) in H.
      apply line_specifies_path_tokens in Hline.
      destruct (Py.split _) as [|first rest] eqn:E.
      { destruct Hline as [(f & r & Hf & _)|(t & Ht & _)]; [discriminate Hf|destruct Ht]. }
      destruct (exists_last (l := first :: rest)) as (ts & t & Ets); [discriminate|].
      rewrite Ets, getitem_last in H. discriminate.
Qed.

(** ** Errors of the plan, read backwards *)

Section PlanErrors.

Context {fs : Type}.
Variable path_exists : fs -> string -> bool.
Variable run_shell : string -> string -> Z * string.
Variable JOSHUA_PATH : string.

Local Abbreviation process := (process_line_containing_path path_exists).
Local Abbreviation plan := (plan_lines path_exists).
Local Abbreviation collect := (collect_operations path_exists run_shell JOSHUA_PATH).
Local Abbreviation lines_of := (input_lines run_shell JOSHUA_PATH).
Local Abbreviation clear := (destination_clear path_exists).

Lemma process_line_raise disk (line dest_dir : string) (symlink absolute : bool)
    counts e counts' :
  process disk line dest_dir symlink absolute counts = (Raise e, counts') ->
  exn_kind e = IndexError \/
  exists p,
    parse_path (LineParts.config (extract_line_parts line)) = Ok p /\
    path_exists disk (OsPath.normpath p) = false /\
    e = MkExn PathException (missing_message (OsPath.normpath p)).
Proof.
  intros H.
  destruct (parse_path (LineParts.config (extract_line_parts line))) as [p|e0] eqn:Ep.
  - destruct (path_exists disk (OsPath.normpath p)) eqn:Ex.
    + pose proof (get_unique_dest_step (OsPath.basename p) counts) as Ed.
      rewrite (process_line_found _ _ _ _ _ _ _ _ Ep Ex _ _ Ed) in H. discriminate.
    + rewrite (process_line_missing _ _ _ _ _ _ _ _ Ep Ex) in H.
      injection H as <- _. right. exists p.
      split; [reflexivity|]. split; [exact Ex|reflexivity].
  - rewrite (process_line_malformed _ _ _ _ _ _ _ _ Ep) in H. injection H as <- _.
    left. now rewrite (parse_path_raise _ _ Ep).
Qed.

Lemma plan_lines_path_error disk opts lines : forall i ops ls counts e counts',
  plan disk opts i lines ops ls counts = (Raise e, counts') ->
  exn_kind e = PathException ->
  exists k line p,
    nth_error lines k = Some line /\
    line_specifies_path line = true /\
    parse_path (LineParts.config (extract_line_parts line)) = Ok p /\
    path_exists disk (OsPath.normpath p) = false /\
    message e =
      "ERROR: Configuration file " ++ Py.dq ++ Opts.config_name opts ++ Py.dq
        ++ " line " ++ Py.str_of_nat (i + S k) ++ ": "
        ++ missing_message (OsPath.normpath p).
Proof.
  induction lines as [|line rest IH]; intros i ops ls counts e counts' H Hkind;
    [discriminate H|].
  assert (Hnext : forall ops' ls' c,
            plan disk opts (S i) rest ops' ls' c = (Raise e, counts') ->
            exists k x p,
              nth_error (line :: rest) k = Some x /\
              line_specifies_path x = true /\
              parse_path (LineParts.config (extract_line_parts x)) = Ok p /\
              path_exists disk (OsPath.normpath p) = false /\
              message e =
                "ERROR: Configuration file " ++ Py.dq ++ Opts.config_name opts ++ Py.dq
                  ++ " line " ++ Py.str_of_nat (i + S k) ++ ": "
                  ++ missing_message (OsPath.normpath p)).
  { intros ops' ls' c Hrest.
    destruct (IH _ _ _ _ _ _ Hrest Hkind) as (k & x & p & Hk & Hx & Hp & Hex & Hmsg).
    exists (S k), x, p. repeat split; try assumption.
    now replace (i + S (S k))%nat with (S i + S k)%nat by lia. }
  destruct (line_specifies_path line) eqn:Hl.
  - destruct (process disk line (Opts.dest_dir opts) (Opts.symlink opts)
                (Opts.absolute opts) counts) as [[[line' op]|e0] c] eqn:E.
    + rewrite (plan_lines_step _ _ _ _ _ _ _ _ _ _ _ _ Hl E) in H. exact (Hnext _ _ _ H).
    + rewrite (plan_lines_raise _ _ _ _ _ _ _ _ _ _ _ Hl E) in H. injection H as <- _.
      destruct (process_line_raise _ _ _ _ _ _ _ _ E) as [Hidx|(p & Hp & Hex & ->)].
      * rewrite Hidx in Hkind. rewrite Hidx in Hkind. discriminate.
      * exists 0%nat, line, p. repeat split; assumption.
  - rewrite (plan_lines_skip _ _ _ _ _ _ _ _ _ Hl) in H. exact (Hnext _ _ _ H).
Qed.

(** X16. Every [PathException] that leaves the planner comes from a
    path-bearing line of the configuration whose normalised path does not
    exist, and its message carries the name of the configuration file and
    the 1-based number of that line. *)
Theorem path_errors_name_their_line disk (opts : Opts.t) counts e counts' :
  collect disk opts counts = (Raise e, counts') ->
  exn_kind e = PathException ->
  exists lines k line p,
    lines_of opts = Ok lines /\
    nth_error lines k = Some line /\
    line_specifies_path line = true /\
    parse_path (LineParts.config (extract_line_parts line)) = Ok p /\
    path_exists disk (OsPath.normpath p) = false /\
    message e =
      "ERROR: Configuration file " ++ Py.dq ++ Opts.config_name opts ++ Py.dq
        ++ " line " ++ Py.str_of_nat (S k) ++ ": "
        ++ missing_message (OsPath.normpath p).
Proof.
  intros H Hkind. destruct (clear disk opts) eqn:Hclear.
  2:{ destruct (collect_blocked _ run_shell JOSHUA_PATH _ _ counts Hclear) as (e' & He & Hk).
      rewrite He in H. injection H as <- _. rewrite Hk in Hkind. discriminate. }
  rewrite (collect_plan _ _ _ _ _ _ Hclear) in H.
  destruct (lines_of opts) as [lines|e0] eqn:Hlines.
  2:{ injection H as <- _. unfold input_lines in Hlines.
      destruct (negb _); [|discriminate].
      unfold filter_through_copy_config_script in Hlines.
      destruct (run_shell _ _) as [rc out]. destruct (negb _); [|discriminate].
      injection Hlines as <-. discriminate. }
  destruct (plan disk opts 0 lines _ [] counts) as [[r|e1] c] eqn:Hp;
    [destruct r; discriminate|].
  injection H as -> ->.
  destruct (plan_lines_path_error _ _ _ _ _ _ _ _ _ Hp Hkind)
    as (k & line & p & Hk & Hl & Hpath & Hex & Hmsg).
  exists lines, k, line, p. repeat split; assumption.
Qed.

End PlanErrors.

(** ** Edge cases of the rewriting *)

Lemma endswith_rfind (c : ascii) (s : string) :
  Py.endswith_char c s = true -> Py.rfind c s = Z.of_nat (String.length s) - 1.
Proof.
  induction s as [|a r IH]; [discriminate|].
  destruct r as [|b r].
  - cbn. intros H. rewrite H. reflexivity.
  - intros H. change (Py.endswith_char c (String a (String b r)))
      with (Py.endswith_char c (String b r)) in H.
    specialize (IH H). cbn [Py.rfind] in IH |- *. cbn [String.length] in IH |- *.
    rewrite IH. destruct (Z.leb_spec 0 (Z.of_nat (S (String.length r)) - 1)); lia.
Qed.

Lemma drop_all (s : string) : Py.drop (String.length s) s = "".
Proof. induction s as [|a r IH]; [reflexivity|exact IH]. Qed.

Lemma basename_trailing_slash (p : string) :
  Py.endswith_char "/" p = true -> OsPath.basename p = "".
Proof.
  intros H. unfold OsPath.basename. rewrite (endswith_rfind _ _ H).
  replace (Z.of_nat (String.length p) - 1 + 1) with (Z.of_nat (String.length p)) by lia.
  rewrite Nat2Z.id. apply drop_all.
Qed.

Section Edges.

Context {fs : Type}.
Variable path_exists : fs -> string -> bool.
Variable run_shell : string -> string -> Z * string.
Variable JOSHUA_PATH : string.

Local Abbreviation process := (process_line_containing_path path_exists).
Local Abbreviation collect := (collect_operations path_exists run_shell JOSHUA_PATH).

(** X17. A path written with a trailing slash has an empty basename: the
    first such line of a run is planned as a copy onto the model directory
    itself, [{dest_dir}/model/], and in relative mode its path text is
    replaced by [model/]. *)
Theorem trailing_slash_loses_name disk (line dest_dir p : string)
    (symlink absolute : bool) (counts : gmap string nat) :
  parse_path (LineParts.config (extract_line_parts line)) = Ok p ->
  Py.endswith_char "/" p = true ->
  path_exists disk (OsPath.normpath p) = true ->
  counts !! "" = None ->
  exists line' msg,
    process disk line dest_dir symlink absolute counts =
      (Ok (line', MkOp (recursive_copy (OsPath.normpath p)
                          (OsPath.join dest_dir ["model"; ""]) symlink) msg),
       <["" := 1%nat]> counts) /\
    (absolute = false ->
     line' = Py.replace (LineParts.config (extract_line_parts line)) p "model/"
               ++ (if String.eqb (LineParts.comment (extract_line_parts line)) ""
                   then "" else "#" ++ LineParts.comment (extract_line_parts line))).
Proof.
  intros Hp Hslash Hex Hcount.
  pose proof (get_unique_dest_step (OsPath.basename p) counts) as Hd.
  rewrite (basename_trailing_slash _ Hslash), Hcount in Hd. cbn [default] in Hd.
  pose proof (process_line_found path_exists disk line dest_dir symlink absolute counts p
                Hp Hex "" (<["" := 1%nat]> counts)) as Hfound.
  rewrite (basename_trailing_slash _ Hslash) in Hfound. specialize (Hfound Hd).
  cbv zeta in Hfound. eexists _, _. split; [exact Hfound|].
  intros ->. destruct (String.eqb _ ""); cbn [negb]; [|reflexivity].
  now rewrite append_nil_r.
Qed.

(** X18. Under [--symlink] every copy of a plan ends in one call of
    [os.symlink], whatever the source is; without it a directory goes
    through [shutil.copytree] with symlinks kept and anything else through
    [shutil.copy]. *)
Theorem symlink_option_decides_every_copy disk (opts : Opts.t) counts ops counts'
    (isdir : string -> bool) :
  collect disk opts counts = (Ok ops, counts') ->
  forall op src dest s,
    In op ops -> op_call op = recursive_copy src dest s ->
    recursive_copy_body isdir src dest s =
      if Opts.symlink opts then os_symlink src dest
      else if isdir src then shutil_copytree src dest true
      else shutil_copy src dest.
Proof.
  intros H op src dest s Hin Hop.
  destruct (collect_shape path_exists run_shell JOSHUA_PATH _ _ _ _ _ H) as (lines & copies & ls & _ & _ & Hp & ->).
  destruct (plan_lines_shape path_exists _ _ _ _ _ _ _ _ Hp) as (_ & _ & Hall & _).
  apply in_app_or in Hin as [Hin|Hin];
    [destruct (first_operations_no_copy path_exists _ _ _ _ _ _ Hin Hop)|].
  apply in_app_or in Hin as [Hin|Hin];
    [|destruct (last_operations_no_copy _ _ _ _ _ _ Hin Hop)].
  rewrite Forall_forall in Hall.
  destruct (Hall op (proj2 (list_elem_of_In _ _) Hin)) as (src' & name & Hop' & _).
  rewrite Hop in Hop'. injection Hop' as _ _ ->. reflexivity.
Qed.

End Edges.

(** ** Lines that share a basename *)

Lemma join_model_inj (dest_dir d1 d2 : string) :
  slash_free d1 = true -> slash_free d2 = true ->
  OsPath.join dest_dir ["model"; d1] = OsPath.join dest_dir ["model"; d2] ->
  d1 = d2.
Proof.
  intros H1 H2. unfold OsPath.join. cbn [fold_left]. unfold OsPath.join2 at 1 3.
  rewrite (startswith_absent "/" _ H1), (startswith_absent "/" _ H2).
  destruct (_ || _); intros H.
  - exact (append_inv_head _ _ _ H).
  - exact (append_inv_head _ _ _ (append_inv_head _ _ _ H)).
Qed.

Section SharedBasename.

Context {fs : Type}.
Variable path_exists : fs -> string -> bool.

Local Abbreviation process := (process_line_containing_path path_exists).
Local Abbreviation plan := (plan_lines path_exists).

(** The registry only ever counts up. *)
Lemma process_line_counts_mono disk (line dest_dir : string) (symlink absolute : bool)
    counts r counts' :
  process disk line dest_dir symlink absolute counts = (r, counts') ->
  forall name,
    (default 0%nat (counts !! name) <= default 0%nat (counts' !! name))%nat.
Proof.
  intros H name.
  assert (Hins : forall b,
            (default 0%nat (counts !! name)
             <= default 0%nat (<[b := S (default 0%nat (counts !! b))]> counts !! name))%nat).
  { intros b. destruct (String.eqb_spec b name) as [->|Hne].
    - rewrite lookup_insert_eq. cbn [default]. apply Nat.le_succ_diag_r.
    - rewrite lookup_insert_ne by congruence. apply Nat.le_refl. }
  destruct (parse_path (LineParts.config (extract_line_parts line))) as [p|e] eqn:Ep.
  - pose proof (get_unique_dest_step (OsPath.basename p) counts) as Ed.
    destruct (path_exists disk (OsPath.normpath p)) eqn:Ex.
    + rewrite (process_line_found _ _ _ _ _ _ _ _ Ep Ex _ _ Ed) in H.
      injection H as _ <-. apply Hins.
    + rewrite (process_line_missing _ _ _ _ _ _ _ _ Ep Ex), Ed in H.
      injection H as _ <-. apply Hins.
  - rewrite (process_line_malformed _ _ _ _ _ _ _ _ Ep) in H. injection H as _ <-.
    apply Nat.le_refl.
Qed.

Lemma plan_lines_counts_mono disk opts lines : forall i ops ls counts r counts',
  plan disk opts i lines ops ls counts = (r, counts') ->
  forall name,
    (default 0%nat (counts !! name) <= default 0%nat (counts' !! name))%nat.
Proof.
  induction lines as [|line rest IH]; intros i ops ls counts r counts' H name.
  - cbn in H. injection H as _ <-. apply Nat.le_refl.
  - destruct (line_specifies_path line) eqn:Hl.
    + destruct (process disk line (Opts.dest_dir opts) (Opts.symlink opts)
                  (Opts.absolute opts) counts) as [[[line' op]|e] c] eqn:E.
      * rewrite (plan_lines_step _ _ _ _ _ _ _ _ _ _ _ _ Hl E) in H.
        eapply Nat.le_trans; [exact (process_line_counts_mono _ _ _ _ _ _ _ _ E name)|].
        exact (IH _ _ _ _ _ _ H name).
      * rewrite (plan_lines_raise _ _ _ _ _ _ _ _ _ _ _ Hl E) in H. injection H as _ <-.
        exact (process_line_counts_mono _ _ _ _ _ _ _ _ E name).
    + rewrite (plan_lines_skip _ _ _ _ _ _ _ _ _ Hl) in H. exact (IH _ _ _ _ _ _ H name).
Qed.

(** A line that is processed, with the registry before and after. *)
Lemma process_line_answer disk (line dest_dir : string) (symlink absolute : bool)
    counts line' op counts' p :
  process disk line dest_dir symlink absolute counts = (Ok (line', op), counts') ->
  parse_path (LineParts.config (extract_line_parts line)) = Ok p ->
  let b := OsPath.basename p in
  let k := default 0%nat (counts !! b) in
  op_call op =
    recursive_copy (OsPath.normpath p) (OsPath.join dest_dir ["model"; answer b k]) symlink /\
  slash_free (answer b k) = true /\
  default 0%nat (counts' !! b) = S k.
Proof.
  intros H Hp. cbv zeta.
  destruct (process_line_inv _ _ _ _ _ _ _ _ _ _ H) as (p' & d & Hp' & Hex & Hd).
  rewrite Hp in Hp'. injection Hp' as <-.
  rewrite (process_line_found _ _ _ _ _ _ _ _ Hp Hex _ _ Hd) in H. injection H as _ Hop.
  destruct (get_unique_dest_basename p counts) as (d' & Hd' & Hslash).
  rewrite Hd in Hd'. injection Hd' as <- Hc.
  rewrite get_unique_dest_step in Hd. injection Hd as Hans _.
  change (answer (OsPath.basename p) (default 0%nat (counts !! OsPath.basename p)) = d) in Hans.
  rewrite Hans. split; [now rewrite <- Hop|]. split; [exact Hslash|].
  rewrite Hc, lookup_insert_eq. reflexivity.
Qed.

(** X19. Two path-bearing lines of a plan whose paths share a basename are
    copied to different destinations, whatever lies between them. *)
Theorem same_basename_distinct_copies disk (opts : Opts.t) (i : nat)
    (pre mid post : list string) (l1 l2 p1 p2 : string) counts ops ls counts' :
  plan disk opts i (pre ++ l1 :: mid ++ l2 :: post) [] [] counts
    = (Ok (ops, ls), counts') ->
  line_specifies_path l1 = true ->
  line_specifies_path l2 = true ->
  parse_path (LineParts.config (extract_line_parts l1)) = Ok p1 ->
  parse_path (LineParts.config (extract_line_parts l2)) = Ok p2 ->
  OsPath.basename p1 = OsPath.basename p2 ->
  exists before op1 between op2 after d1 d2,
    ops = (before ++ op1 :: between ++ op2 :: after)%list /\
    op_call op1 = recursive_copy (OsPath.normpath p1) d1 (Opts.symlink opts) /\
    op_call op2 = recursive_copy (OsPath.normpath p2) d2 (Opts.symlink opts) /\
    d1 <> d2.
Proof.
  intros H Hl1 Hl2 Hp1 Hp2 Hbase.
  rewrite plan_lines_app in H.
  destruct (plan disk opts i pre [] [] counts) as [[[o1 s1]|e] c1] eqn:E1; [|discriminate].
  destruct (process disk l1 (Opts.dest_dir opts) (Opts.symlink opts)
              (Opts.absolute opts) c1) as [[[l1' op1]|e] c1'] eqn:P1.
  2:{ rewrite (plan_lines_raise _ _ _ _ _ _ _ _ _ _ _ Hl1 P1) in H. discriminate. }
  rewrite (plan_lines_step _ _ _ _ _ _ _ _ _ _ _ _ Hl1 P1), plan_lines_app in H.
  rewrite (plan_lines_acc path_exists disk opts mid) in H.
  destruct (plan disk opts _ mid [] [] c1') as [[[o2 s2]|e] c2] eqn:E2; [|discriminate].
  destruct (process disk l2 (Opts.dest_dir opts) (Opts.symlink opts)
              (Opts.absolute opts) c2) as [[[l2' op2]|e] c2'] eqn:P2.
  2:{ rewrite (plan_lines_raise _ _ _ _ _ _ _ _ _ _ _ Hl2 P2) in H. discriminate. }
  rewrite (plan_lines_step _ _ _ _ _ _ _ _ _ _ _ _ Hl2 P2), plan_lines_acc in H.
  destruct (plan disk opts _ post [] [] c2') as [[[o3 s3]|e] c3] eqn:E3; [|discriminate].
  injection H as <- _ _.
  destruct (process_line_answer _ _ _ _ _ _ _ _ _ _ P1 Hp1) as (Hop1 & Hs1 & Hc1).
  destruct (process_line_answer _ _ _ _ _ _ _ _ _ _ P2 Hp2) as (Hop2 & Hs2 & Hc2).
  pose proof (plan_lines_counts_mono _ _ _ _ _ _ _ _ _ E2 (OsPath.basename p1)) as Hmono.
  eexists o1, op1, o2, op2, o3, _, _.
  split; [now rewrite <- !app_assoc|]. split; [exact Hop1|]. split; [exact Hop2|].
  intros E. apply join_model_inj in E; [|exact Hs1|exact Hs2].
  rewrite <- Hbase in E. apply answer_inj in E.
  rewrite Hc1 in Hmono. lia.
Qed.

End SharedBasename.

(** ** The further properties on the sample world *)

Lemma sample_plan :
  exists ops counts,
    collect_operations Sample.path_exists Sample.run_shell Sample.JOSHUA_PATH
      sample_disk sample_opts ∅ = (Ok ops, counts).
Proof. eexists _, _. vm_compute. reflexivity. Qed.

Lemma plan_operations_in_order_witness :
  exists ops counts lines copies ls,
    Sample.collect sample_disk sample_opts ∅ = (Ok ops, counts) /\
    input_lines Sample.run_shell Sample.JOSHUA_PATH sample_opts = Ok lines /\
    ops = (first_operations Sample.path_exists sample_disk sample_opts ++ copies
             ++ last_operations sample_opts ls)%list /\
    List.length copies = List.length (path_bearing lines).
Proof.
  destruct sample_plan as (ops & counts & H).
  destruct (plan_operations_in_order _ _ _ _ _ _ _ _ H)
    as (lines & copies & ls & Hl & Hops & Hn & _).
  exists ops, counts, lines, copies, ls. repeat split; assumption.
Defined.

Lemma planned_copies_stay_in_model_witness :
  exists ops counts,
    Sample.collect sample_disk sample_opts ∅ = (Ok ops, counts) /\
    forall op src dest s,
      In op ops -> op_call op = recursive_copy src dest s ->
      s = false /\ Sample.path_exists sample_disk src = true /\
      exists name, slash_free name = true /\ dest = OsPath.join "/out" ["model"; name].
Proof.
  destruct sample_plan as (ops & counts & H).
  exists ops, counts. split; [exact H|].
  exact (planned_copies_stay_in_model _ _ _ _ _ _ _ _ H).
Defined.

Lemma rewritten_config_keeps_lines_witness :
  exists ops counts lines ls,
    Sample.collect sample_disk sample_opts ∅ = (Ok ops, counts) /\
    input_lines Sample.run_shell Sample.JOSHUA_PATH sample_opts = Ok lines /\
    List.length ls = List.length lines /\
    In (write_string_to_file "/out/joshua.config" (Py.join Py.nl ls ++ Py.nl))
       (map op_call ops).
Proof.
  destruct sample_plan as (ops & counts & H).
  destruct (rewritten_config_keeps_lines _ _ _ _ _ _ _ _ H)
    as (lines & ls & Hl & Hin & Hn & _).
  exists ops, counts, lines, ls. repeat split; assumption.
Defined.

Lemma plain_config_round_trip_witness :
  exists ls,
    Sample.collect sample_disk plain_opts ∅ =
      (Ok (first_operations Sample.path_exists sample_disk plain_opts
             ++ last_operations plain_opts ls)%list, ∅) /\
    Py.join Py.nl ls = "top-n = 1" ++ Py.nl ++ "mark-oovs = false".
Proof.
  apply (plain_config_round_trip Sample.path_exists Sample.run_shell Sample.JOSHUA_PATH
           sample_disk plain_opts ∅); reflexivity.
Defined.

Lemma existing_destination_stops_run_witness :
  exit_status (Sample.run sample_argv occupied_disk) = 2 /\
  executed (Sample.run sample_argv occupied_disk) = [] /\
  final (Sample.run sample_argv occupied_disk) = occupied_disk.
Proof.
  unfold Sample.run.
  rewrite (existing_destination_stops_run Sample.path_exists Sample.open_read
             Sample.perform Sample.run_shell Sample.JOSHUA_PATH sample_argv occupied_disk
             (defaults Sample.JOSHUA_PATH "joshua.config"
                (default "" (Sample.open_read occupied_disk "joshua.config")) "/out")
             eq_refl eq_refl eq_refl).
  repeat split.
Defined.

Lemma failed_filter_stops_run_witness :
  exit_status (main Sample.path_exists Sample.open_read Sample.perform failing_shell
                 Sample.JOSHUA_PATH sample_argv sample_disk) = 2 /\
  executed (main Sample.path_exists Sample.open_read Sample.perform failing_shell
              Sample.JOSHUA_PATH sample_argv sample_disk) = [].
Proof.
  destruct (failed_filter_stops_run Sample.path_exists Sample.open_read Sample.perform
              failing_shell Sample.JOSHUA_PATH sample_argv sample_disk sample_opts)
    as (Hstatus & _ & Hexec & _).
  - reflexivity.
  - discriminate.
  - simpl. lia.
  - split; assumption.
Defined.

Lemma execute_stops_at_first_failure_witness :
  execute_operations refusing_perform
    ([sample_makedirs] ++ sample_copy :: [sample_makedirs])%list []
  = (Raise (MkExn Exception "Permission denied"), [("/out/model", "")],
     ([sample_makedirs] ++ [sample_copy])%list).
Proof.
  apply (execute_stops_at_first_failure refusing_perform
           [sample_makedirs] [sample_makedirs] sample_copy [] [("/out/model", "")]);
    reflexivity.
Defined.

Lemma failed_operation_leaves_partial_bundle_witness :
  main Sample.path_exists Sample.open_read refusing_perform Sample.run_shell
    Sample.JOSHUA_PATH sample_argv sample_disk
  = MkOutcome 2 (logged "Permission denied")
      ([sample_makedirs] ++ [sample_copy])%list
      (sample_disk ++ [("/out/model", "")])%list.
Proof.
  assert (exists rest counts,
            collect_operations Sample.path_exists Sample.run_shell Sample.JOSHUA_PATH
              sample_disk sample_opts ∅
            = (Ok ([sample_makedirs] ++ sample_copy :: rest)%list, counts))
    as (rest & counts & H) by (eexists _, _; vm_compute; reflexivity).
  apply (failed_operation_leaves_partial_bundle Sample.path_exists Sample.open_read
           refusing_perform Sample.run_shell Sample.JOSHUA_PATH sample_argv sample_disk
           sample_opts [sample_makedirs] rest sample_copy counts
           (sample_disk ++ [("/out/model", "")])%list
           (sample_disk ++ [("/out/model", "")])%list
           (MkExn Exception "Permission denied")).
  - reflexivity.
  - exact H.
  - reflexivity.
  - reflexivity.
Defined.

Lemma no_options_no_filter_witness :
  collect_operations Sample.path_exists Sample.run_shell "/opt/joshua"
    sample_disk plain_opts ∅ =
  collect_operations Sample.path_exists failing_shell "/usr/local/joshua"
    sample_disk plain_opts ∅.
Proof. apply no_options_no_filter. reflexivity. Defined.

Lemma generated_name_keeps_extension_witness :
  exists dest counts,
    get_unique_dest "lm.kenlm" {["lm.kenlm" := 1%nat]} = (Ok dest, counts) /\
    snd (OsPath.splitext dest) = ".kenlm".
Proof.
  assert (exists dest counts,
            get_unique_dest "lm.kenlm" {["lm.kenlm" := 1%nat]} = (Ok dest, counts))
    as (dest & counts & H) by (eexists _, _; vm_compute; reflexivity).
  exists dest, counts. split; [exact H|].
  apply (generated_name_keeps_extension "lm.kenlm" {["lm.kenlm" := 1%nat]} dest counts);
    [reflexivity|discriminate|exact H].
Defined.

Lemma extracted_path_is_a_token_witness :
  "/data/pt" <> "" /\ blank_free "/data/pt" = true /\ hash_free "/data/pt" = true.
Proof.
  apply (extracted_path_is_a_token "tm = moses pt 0 /data/pt # phrase table" "/data/pt").
  reflexivity.
Defined.

Lemma extraction_fails_only_after_flag_witness :
  exists pre flag,
    Py.split "feature-function = LanguageModel -lm_order 5 -lm_file "
      = (pre ++ [flag])%list /\
    (flag = "-path" \/ flag = "-lm_file").
Proof.
  destruct (extraction_fails_only_after_flag
              "feature-function = LanguageModel -lm_order 5 -lm_file # no file"
              (MkExn IndexError "list index out of range") eq_refl eq_refl)
    as (_ & pre & flag & Htok & _ & Hflag).
  exists pre, flag. split; [exact Htok|]. destruct Hflag as [H|[H _]]; [now left|now right].
Defined.

Lemma path_errors_name_their_line_witness :
  exists e counts (lines : list string) k line p,
    Sample.collect missing_disk
      (defaults Sample.JOSHUA_PATH "joshua.config"
         (default "" (Sample.open_read missing_disk "joshua.config")) "/out") ∅
      = (Raise e, counts) /\
    nth_error lines k = Some line /\
    Sample.path_exists missing_disk (OsPath.normpath p) = false /\
    message e =
      "ERROR: Configuration file " ++ Py.dq ++ "joshua.config" ++ Py.dq
        ++ " line " ++ Py.str_of_nat (S k) ++ ": "
        ++ missing_message (OsPath.normpath p).
Proof.
  assert (exists e counts,
            collect_operations Sample.path_exists Sample.run_shell Sample.JOSHUA_PATH
              missing_disk
              (defaults Sample.JOSHUA_PATH "joshua.config"
                 (default "" (Sample.open_read missing_disk "joshua.config")) "/out") ∅
            = (Raise e, counts) /\ exn_kind e = PathException)
    as (e & counts & H & Hkind)
    by (eexists _, _; split; [vm_compute; reflexivity|reflexivity]).
  destruct (path_errors_name_their_line _ _ _ _ _ _ _ _ H Hkind)
    as (lines & k & line & p & _ & Hk & _ & _ & Hex & Hmsg).
  exists e, counts, lines, k, line, p. repeat split; assumption.
Defined.

Lemma trailing_slash_loses_name_witness :
  exists line' msg,
    Sample.process_line [("/data/grammar", "")] "tm = thrax pt 12 /data/grammar/"
      "/out" false false ∅
    = (Ok (line', MkOp (recursive_copy "/data/grammar" "/out/model/" false) msg),
       {["" := 1%nat]}) /\
    line' = "tm = thrax pt 12 model/".
Proof.
  destruct (trailing_slash_loses_name Sample.path_exists [("/data/grammar", "")]
              "tm = thrax pt 12 /data/grammar/" "/out" "/data/grammar/" false false ∅
              eq_refl eq_refl eq_refl (lookup_empty _))
    as (line' & msg & H & Hline).
  exists line', msg. split; [exact H|]. exact (Hline eq_refl).
Defined.

Lemma symlink_option_decides_every_copy_witness :
  exists ops counts,
    Sample.collect sample_disk (apply_setting sample_opts set_symlink) ∅
      = (Ok ops, counts) /\
    forall op src dest s,
      In op ops -> op_call op = recursive_copy src dest s ->
      recursive_copy_body (fun _ => true) src dest s = os_symlink src dest.
Proof.
  assert (exists ops counts,
            collect_operations Sample.path_exists Sample.run_shell Sample.JOSHUA_PATH
              sample_disk (apply_setting sample_opts set_symlink) ∅ = (Ok ops, counts))
    as (ops & counts & H) by (eexists _, _; vm_compute; reflexivity).
  exists ops, counts. split; [exact H|].
  exact (symlink_option_decides_every_copy _ _ _ _ _ _ _ _ (fun _ => true) H).
Defined.

Lemma same_basename_distinct_copies_witness :
  exists ops ls counts before op1 between op2 after d1 d2,
    Sample.plan [("/b/lm.kenlm", "B"); ("/c/lm.kenlm", "C")] sample_opts 0
      ([] ++ "lm = kenlm 5 /b/lm.kenlm" :: ["top-n = 1"]
         ++ "lm = kenlm 5 /c/lm.kenlm" :: [])%list [] [] ∅
      = (Ok (ops, ls), counts) /\
    ops = (before ++ op1 :: between ++ op2 :: after)%list /\
    op_call op1 = recursive_copy "/b/lm.kenlm" d1 false /\
    op_call op2 = recursive_copy "/c/lm.kenlm" d2 false /\
    d1 <> d2.
Proof.
  assert (exists ops ls counts,
            plan_lines Sample.path_exists [("/b/lm.kenlm", "B"); ("/c/lm.kenlm", "C")]
              sample_opts 0
              ([] ++ "lm = kenlm 5 /b/lm.kenlm" :: ["top-n = 1"]
                 ++ "lm = kenlm 5 /c/lm.kenlm" :: [])%list [] [] ∅
            = (Ok (ops, ls), counts))
    as (ops & ls & counts & H) by (eexists _, _, _; vm_compute; reflexivity).
  destruct (same_basename_distinct_copies Sample.path_exists _ _ _ _ _ _ _ _
              "/b/lm.kenlm" "/c/lm.kenlm" _ _ _ _ H eq_refl eq_refl eq_refl eq_refl eq_refl)
    as (before & op1 & between & op2 & after & d1 & d2 & Hops & H1 & H2 & Hd).
  exists ops, ls, counts, before, op1, between, op2, after, d1, d2.
  repeat split; assumption.
Defined.
